(** * pyhf.utils.digest: content digest of a JSON-serializable object

    The embedded function is [digest] of [src/pyhf/utils.py]:

      stringified = json.dumps(obj, sort_keys=True, ensure_ascii=False).encode('utf8')
      hash_alg    = getattr(hashlib, algorithm)
      return hash_alg(stringified).hexdigest()

    with both steps wrapped in [try]/[except] blocks that turn a
    [TypeError] of the first and an [AttributeError] of the second into
    a [ValueError].  The Python pieces it calls ([json.dumps],
    [str.encode], [float.__repr__], the [hashlib] constructors) are
    modelled below as executable functions so that the digest of a
    concrete object can be computed inside the logic.

    What the model leaves out: objects are finite trees (no cycles),
    of the types the encoder knows plus opaque objects it does not;
    the keys of a dict are of the types the encoder accepts as keys;
    subclasses of the builtin types are not told apart from them; the
    interpreter's limits (recursion depth, digits of an [int] turned
    into a string) are never reached; the names of [hashlib] are those
    of CPython 3.11. *)

From Stdlib Require Import ZArith NArith List String Ascii Bool Lia.
From Stdlib Require Import Permutation Sorted DecimalString.
From Stdlib Require Import Floats.SpecFloat.
From Stdlib Require Init.Byte.
Import ListNotations.

Local Open Scope Z_scope.
Set Warnings "-register-all".

(** ** Python builtins *)

Module Py.

(** A Python [str] is a sequence of code points (surrogates included),
    a [bytes] object a sequence of octets. *)
Definition pystr := list N.
Definition pybytes := list Byte.byte.

(** [str "abc"] is the Python string with the ASCII characters of the
    literal. *)
Definition str (s : string) : pystr :=
  map N_of_ascii (list_ascii_of_string s).

(** [a == b] on strings. *)
Fixpoint str_eqb (a b : pystr) : bool :=
  match a, b with
  | [], [] => true
  | x :: a', y :: b' => (x =? y)%N && str_eqb a' b'
  | _, _ => false
  end.

(** Exceptions.  Those raised by library code carry no message here;
    the two [ValueError]s that [digest] raises itself carry theirs. *)
Inductive exn : Type :=
| TypeError
| AttributeError
| UnicodeEncodeError
| ValueError (msg : pystr).

(** The exception classes and the subclass relation between the ones
    above: [UnicodeEncodeError] derives from [ValueError] (through
    [UnicodeError]). *)
Inductive pyclass : Type :=
| CTypeError | CAttributeError | CUnicodeEncodeError | CValueError.

Definition class_of (e : exn) : pyclass :=
  match e with
  | TypeError => CTypeError
  | AttributeError => CAttributeError
  | UnicodeEncodeError => CUnicodeEncodeError
  | ValueError _ => CValueError
  end.

Definition issubclass (c d : pyclass) : bool :=
  match c, d with
  | CTypeError, CTypeError => true
  | CAttributeError, CAttributeError => true
  | CUnicodeEncodeError, CUnicodeEncodeError => true
  | CUnicodeEncodeError, CValueError => true
  | CValueError, CValueError => true
  | _, _ => false
  end.

Definition isinstance (e : exn) (c : pyclass) : bool :=
  issubclass (class_of e) c.

(** The outcome of evaluating an expression: a value or a raised
    exception. *)
Inductive result (A : Type) : Type :=
| Return (a : A)
| Raise (e : exn).
Arguments Return {A} a.
Arguments Raise {A} e.

Definition bind {A B} (r : result A) (k : A -> result B) : result B :=
  match r with
  | Return a => k a
  | Raise e => Raise e
  end.

(** [try r except c: h]: a raised instance of class [c] is handled by
    [h], anything else passes through. *)
Definition try_except {A} (r : result A) (c : pyclass) (h : result A)
  : result A :=
  match r with
  | Return a => Return a
  | Raise e => if isinstance e c then h else Raise e
  end.

(** *** Bytes *)

Definition byte_of_Z (z : Z) : Byte.byte :=
  match Byte.of_N (Z.to_N (z mod 256)) with
  | Some b => b
  | None => Byte.x00
  end.

Definition Z_of_byte (b : Byte.byte) : Z := Z.of_N (Byte.to_N b).

(** *** [int.__repr__] *)

Definition int_repr (z : Z) : pystr :=
  str (NilZero.string_of_int (Z.to_int z)).

(** *** [str.encode('utf8')]

    One to four octets per code point; a surrogate cannot be encoded
    and raises. *)
Definition utf8_char (c : N) : result pybytes :=
  let z := Z.of_N c in
  if z <? 0x80 then Return [byte_of_Z z]
  else if z <? 0x800 then
    Return [byte_of_Z (0xC0 + Z.shiftr z 6);
            byte_of_Z (0x80 + Z.land z 0x3F)]
  else if (0xD800 <=? z) && (z <=? 0xDFFF) then Raise UnicodeEncodeError
  else if z <? 0x10000 then
    Return [byte_of_Z (0xE0 + Z.shiftr z 12);
            byte_of_Z (0x80 + Z.land (Z.shiftr z 6) 0x3F);
            byte_of_Z (0x80 + Z.land z 0x3F)]
  else
    Return [byte_of_Z (0xF0 + Z.shiftr z 18);
            byte_of_Z (0x80 + Z.land (Z.shiftr z 12) 0x3F);
            byte_of_Z (0x80 + Z.land (Z.shiftr z 6) 0x3F);
            byte_of_Z (0x80 + Z.land z 0x3F)].

Fixpoint encode_utf8 (s : pystr) : result pybytes :=
  match s with
  | [] => Return []
  | c :: s' =>
      bind (utf8_char c) (fun bs =>
      bind (encode_utf8 s') (fun rest => Return (bs ++ rest)))
  end.

(** *** Lowercase hexadecimal *)

Definition hex_digit (z : Z) : N :=
  Z.to_N (if z <? 10 then 48 + z else 87 + z).

Definition hex_byte (b : Byte.byte) : pystr :=
  let z := Z_of_byte b in
  [hex_digit (Z.shiftr z 4); hex_digit (Z.land z 15)].

Definition hexlify (bs : pybytes) : pystr := flat_map hex_byte bs.

(** *** [float.__repr__]

    A float is a [spec_float] in binary64 format: [S754_finite s m e]
    stands for [(-1)^s * m * 2^e] with [bounded 53 1024 m e].  Its
    [repr] is the shortest decimal string that rounds back to the same
    float, the closest to the float's value among those, laid out in
    the ['r'] format. *)

Definition prec : Z := 53.
Definition emax : Z := 1024.

Definition is_binary64 (f : spec_float) : bool :=
  match f with
  | S754_finite _ m e => bounded prec emax m e
  | _ => true
  end.

(** [10^k <= m * 2^e], on integers. *)
Definition ge_pow10 (m e k : Z) : bool :=
  10 ^ Z.max k 0 * 2 ^ Z.max (- e) 0 <=? m * 2 ^ Z.max e 0 * 10 ^ Z.max (- k) 0.

(** The decimal exponent [k] with [10^k <= m * 2^e < 10^(k+1)],
    searched from [k]. *)
Fixpoint adjust_log10 (fuel : nat) (m e k : Z) : Z :=
  match fuel with
  | O => k
  | S fuel' =>
      if ge_pow10 m e (k + 1) then adjust_log10 fuel' m e (k + 1)
      else if ge_pow10 m e k then k
      else adjust_log10 fuel' m e (k - 1)
  end.

Definition floor_log10 (m e : Z) : Z :=
  adjust_log10 8 m e ((Z.log2 m + e) * 30103 / 100000).

(** Digit generation.  The value left to print is [b / den] (one digit
    before the point), [mlo / den] and [mhi / den] are the distances to
    the midpoints with the neighbouring floats; [acc] holds the digits
    produced so far, [i] counts them.  Generation stops at the first
    digit after which the number printed, or that number with its last
    digit incremented, rounds back to the float ([even]: midpoints
    round to it as well).  The result is the integer whose decimal
    digits were produced, with the number of digit positions. *)
Fixpoint shortest_loop (fuel : nat) (even : bool)
    (b den mlo mhi acc i : Z) : Z * Z :=
  let dig := b / den in
  let r := b mod den in
  let j := r ?= mlo in
  let j1 := r + mhi ?= den in
  let keep := (10 * acc + dig, i) in
  let up := (10 * acc + dig + 1, i) in
  if match j1 with Eq => even | _ => false end then
    if dig =? 9 then up
    else match j with Gt => up | _ => keep end
  else if match j with Lt => true | Eq => even | Gt => false end then
    if r =? 0 then keep
    else match j1 with
         | Gt => if (den <? 2 * r) || ((den =? 2 * r) && Z.odd dig)
                 then up else keep
         | _ => keep
         end
  else match j1 with
       | Gt => up
       | _ =>
           match fuel with
           | O => keep
           | S fuel' =>
               shortest_loop fuel' even (10 * r) den (10 * mlo) (10 * mhi)
                 (10 * acc + dig) (i + 1)
           end
       end.

Fixpoint strip_zeros_rev (ds : pystr) : pystr :=
  match ds with
  | d :: ds' => if (d =? 48)%N then strip_zeros_rev ds' else ds
  | [] => []
  end.

Definition strip_trailing_zeros (ds : pystr) : pystr :=
  rev (strip_zeros_rev (rev ds)).

(** The shortest digits of [m * 2^e] and the position [decpt] of the
    decimal point: the value printed is [0.d1d2...dn * 10^decpt]. *)
Definition shortest_digits (m : positive) (e : Z) : pystr * Z :=
  let zm := Z.pos m in
  let boundary := (zm =? 2 ^ (prec - 1)) && (3 - emax - prec <? e) in
  let tp := 2 ^ Z.max e 0 in
  let tn := 2 ^ Z.max (- e) 0 in
  let '(num, den, mlo, mhi) :=
    if boundary then (zm * tp * 4, tn * 4, tp, tp * 2)
    else (zm * tp * 2, tn * 2, tp, tp) in
  let k := floor_log10 zm e in
  let up := 10 ^ Z.max (- k) 0 in
  let '(d, i) :=
    shortest_loop 32 (Z.even zm) (num * up) (den * 10 ^ Z.max k 0)
      (mlo * up) (mhi * up) 0 1 in
  let ds := int_repr d in
  (strip_trailing_zeros ds, k + 1 + (Z.of_nat (List.length ds) - i)).

Definition zeros (n : Z) : pystr := repeat 48%N (Z.to_nat n).

(** ["%+.02d"]: a sign and at least two digits. *)
Definition exp_repr (x : Z) : pystr :=
  let ds := int_repr (Z.abs x) in
  (if x <? 0 then str "-" else str "+")
    ++ (if Z.abs x <? 10 then str "0" else []) ++ ds.

(** Layout of the ['r'] format: exponent notation when
    [decpt <= -4] or [decpt > 16], and otherwise always a decimal
    point with at least one digit after it. *)
Definition format_repr (ds : pystr) (decpt : Z) : pystr :=
  let n := Z.of_nat (List.length ds) in
  if (decpt <=? -4) || (16 <? decpt) then
    firstn 1 ds
      ++ (if 1 <? n then str "." ++ skipn 1 ds else [])
      ++ str "e" ++ exp_repr (decpt - 1)
  else if decpt <=? 0 then
    str "0." ++ zeros (- decpt) ++ ds
  else if n <=? decpt then
    ds ++ zeros (decpt - n) ++ str ".0"
  else
    firstn (Z.to_nat decpt) ds ++ str "." ++ skipn (Z.to_nat decpt) ds.

Definition float_repr (f : spec_float) : pystr :=
  match f with
  | S754_nan => str "nan"
  | S754_infinity s => if s then str "-inf" else str "inf"
  | S754_zero s => if s then str "-0.0" else str "0.0"
  | S754_finite s m e =>
      let '(ds, decpt) := shortest_digits m e in
      (if s then str "-" else []) ++ format_repr ds decpt
  end.

(** The float nearest to an integer below [2^53] and, more generally,
    the canonical binary64 form of [m * 2^e] when that value is
    representable (used to write floats down in examples). *)
Fixpoint normalize_down (fuel : nat) (m : positive) (e : Z) : positive * Z :=
  match fuel, m with
  | S fuel', xO m' =>
      if bounded prec emax m e then (m, e) else normalize_down fuel' m' (e + 1)
  | _, _ => (m, e)
  end.

Fixpoint normalize_up (fuel : nat) (m : positive) (e : Z) : positive * Z :=
  match fuel with
  | S fuel' =>
      if bounded prec emax m e then (m, e)
      else if 3 - emax - prec <? e then normalize_up fuel' (xO m) (e - 1)
      else (m, e)
  | O => (m, e)
  end.

Definition float_of_dyadic (m e : Z) : spec_float :=
  match m with
  | 0 => S754_zero false
  | Z.pos p =>
      let '(p1, e1) := normalize_down 2200 p e in
      let '(p2, e2) := normalize_up 64 p1 e1 in
      S754_finite false p2 e2
  | Z.neg p =>
      let '(p1, e1) := normalize_down 2200 p e in
      let '(p2, e2) := normalize_up 64 p1 e1 in
      S754_finite true p2 e2
  end.

Definition float_of_Z (z : Z) : spec_float := float_of_dyadic z 0.

End Py.

(** ** The [json] module: [json.dumps] *)

Module Json.
Import Py.

(** The objects [digest] is applied to.  [PList] and [PTuple] are
    Python lists and tuples, [PDict] a dict as the sequence of its
    items in insertion order, [PObject cls] an instance of any class
    the encoder does not know ([set], [bytes], a function, ...).  Dict
    keys are of the types the encoder accepts as keys. *)
Inductive key : Type :=
| KStr (s : pystr)
| KInt (z : Z)
| KFloat (f : spec_float)
| KBool (b : bool)
| KNone.

Inductive pyobj : Type :=
| PNone
| PBool (b : bool)
| PInt (z : Z)
| PFloat (f : spec_float)
| PStr (s : pystr)
| PList (l : list pyobj)
| PTuple (l : list pyobj)
| PDict (items : list (key * pyobj))
| PObject (cls : pystr).

(** *** Induction on objects, with the items of a container as
    induction hypotheses *)

Section PyobjInduction.
Variable P : pyobj -> Prop.
Hypothesis HNone : P PNone.
Hypothesis HBool : forall b, P (PBool b).
Hypothesis HInt : forall z, P (PInt z).
Hypothesis HFloat : forall f, P (PFloat f).
Hypothesis HStr : forall s, P (PStr s).
Hypothesis HList : forall l, Forall P l -> P (PList l).
Hypothesis HTuple : forall l, Forall P l -> P (PTuple l).
Hypothesis HDict :
  forall items, Forall (fun kv => P (snd kv)) items -> P (PDict items).
Hypothesis HObject : forall cls, P (PObject cls).

Fixpoint pyobj_induction (o : pyobj) : P o :=
  let all :=
    fix all (l : list pyobj) : Forall P l :=
      match l with
      | [] => Forall_nil P
      | x :: l' => Forall_cons x (pyobj_induction x) (all l')
      end in
  match o with
  | PNone => HNone
  | PBool b => HBool b
  | PInt z => HInt z
  | PFloat f => HFloat f
  | PStr s => HStr s
  | PList l => HList l (all l)
  | PTuple l => HTuple l (all l)
  | PDict items =>
      HDict items
        ((fix values (l : list (key * pyobj))
            : Forall (fun kv => P (snd kv)) l :=
            match l with
            | [] => Forall_nil _
            | kv :: l' =>
                Forall_cons kv (pyobj_induction (snd kv)) (values l')
            end) items)
  | PObject cls => HObject cls
  end.

End PyobjInduction.

(** *** Ordering of keys: Python's [<]

    Strings compare by code points; [int], [bool] and [float] compare
    by value, exactly; every other combination raises [TypeError]. *)

Fixpoint str_lt (a b : pystr) : bool :=
  match a, b with
  | _, [] => false
  | [], _ :: _ => true
  | x :: a', y :: b' =>
      if (x <? y)%N then true
      else if (y <? x)%N then false
      else str_lt a' b'
  end.

(** A number: not-a-number, an infinity, or [m * 2^e]. *)
Inductive num : Type :=
| NumNan
| NumInf (neg : bool)
| NumFin (m e : Z).

Definition num_of_float (f : spec_float) : num :=
  match f with
  | S754_nan => NumNan
  | S754_infinity s => NumInf s
  | S754_zero _ => NumFin 0 0
  | S754_finite s m e => NumFin (if s then Z.neg m else Z.pos m) e
  end.

Definition num_lt (a b : num) : bool :=
  match a, b with
  | NumNan, _ | _, NumNan => false
  | NumInf sa, NumInf sb => sa && negb sb
  | NumInf sa, NumFin _ _ => sa
  | NumFin _ _, NumInf sb => negb sb
  | NumFin m1 e1, NumFin m2 e2 =>
      let e := Z.min e1 e2 in
      m1 * 2 ^ (e1 - e) <? m2 * 2 ^ (e2 - e)
  end.

Definition num_of_key (k : key) : option num :=
  match k with
  | KInt z => Some (NumFin z 0)
  | KBool b => Some (NumFin (if b then 1 else 0) 0)
  | KFloat f => Some (num_of_float f)
  | KStr _ | KNone => None
  end.

Definition key_lt (a b : key) : result bool :=
  match a, b with
  | KStr s, KStr t => Return (str_lt s t)
  | _, _ =>
      match num_of_key a, num_of_key b with
      | Some x, Some y => Return (num_lt x y)
      | _, _ => Raise TypeError
      end
  end.

(** *** [sorted(dct.items())]

    The items are tuples [(key, value)]; the keys of a dict are
    pairwise different, so a comparison of two items is decided by
    their keys.  Sorting is stable and uses [<] only; a comparison
    that raises aborts it.  Whenever [<] orders the keys, or raises on
    two of them, the outcome does not depend on the sorting algorithm;
    the model inserts the items one by one. *)
Section Sorting.
Context {V : Type}.

Fixpoint insert_item (x : key * V) (l : list (key * V))
  : result (list (key * V)) :=
  match l with
  | [] => Return [x]
  | y :: l' =>
      bind (key_lt (fst y) (fst x)) (fun below =>
      if below
      then bind (insert_item x l') (fun r => Return (y :: r))
      else Return (x :: l))
  end.

Fixpoint sort_items (l : list (key * V)) : result (list (key * V)) :=
  match l with
  | [] => Return []
  | x :: l' => bind (sort_items l') (insert_item x)
  end.
End Sorting.

(** *** Strings: [encode_basestring] ([ensure_ascii=False])

    Only the quote, the backslash and the control characters below
    U+0020 are escaped; everything else is copied. *)
Definition hex4 (c : N) : pystr :=
  let z := Z.of_N c in
  [hex_digit (Z.land (Z.shiftr z 12) 15); hex_digit (Z.land (Z.shiftr z 8) 15);
   hex_digit (Z.land (Z.shiftr z 4) 15); hex_digit (Z.land z 15)].

Definition escape_char (c : N) : pystr :=
  if (c =? 92)%N then str "\\"
  else if (c =? 34)%N then [92; 34]%N
  else if (c =? 8)%N then str "\b"
  else if (c =? 12)%N then str "\f"
  else if (c =? 10)%N then str "\n"
  else if (c =? 13)%N then str "\r"
  else if (c =? 9)%N then str "\t"
  else if (c <? 32)%N then str "\u" ++ hex4 c
  else [c].

Definition encode_basestring (s : pystr) : pystr :=
  [34%N] ++ flat_map escape_char s ++ [34%N].

(** *** Numbers *)

(** [allow_nan] keeps its default [True]: the non-finite floats are
    written as JavaScript's names for them. *)
Definition floatstr (f : spec_float) : pystr :=
  match f with
  | S754_nan => str "NaN"
  | S754_infinity s => if s then str "-Infinity" else str "Infinity"
  | _ => float_repr f
  end.

(** *** Keys are coerced to strings *)
Definition key_str (k : key) : pystr :=
  match k with
  | KStr s => s
  | KFloat f => floatstr f
  | KBool b => if b then str "true" else str "false"
  | KNone => str "null"
  | KInt z => int_repr z
  end.

(** *** The encoder

    Default separators [", "] and [": "]; [sort_keys=True]. *)
Fixpoint join (sep : pystr) (parts : list pystr) : pystr :=
  match parts with
  | [] => []
  | [p] => p
  | p :: rest => p ++ sep ++ join sep rest
  end.

Fixpoint sequence (rs : list (result pystr)) : result (list pystr) :=
  match rs with
  | [] => Return []
  | r :: rs' =>
      bind r (fun s => bind (sequence rs') (fun ss => Return (s :: ss)))
  end.

Definition emit_item (kv : key * result pystr) : result pystr :=
  bind (snd kv) (fun s =>
    Return (encode_basestring (key_str (fst kv)) ++ str ": " ++ s)).

(** The items of a dict are sorted first and encoded, in sorted order,
    afterwards: [encode_item] pairs every key with the (not yet
    demanded) encoding of its value, so that the first exception in
    that order is the one raised. *)
Fixpoint dumps (o : pyobj) : result pystr :=
  match o with
  | PNone => Return (str "null")
  | PBool b => Return (if b then str "true" else str "false")
  | PInt z => Return (int_repr z)
  | PFloat f => Return (floatstr f)
  | PStr s => Return (encode_basestring s)
  | PList l | PTuple l =>
      bind (sequence (map dumps l)) (fun parts =>
      Return (str "[" ++ join (str ", ") parts ++ str "]"))
  | PDict items =>
      let encode_item kv := (fst kv, dumps (snd kv)) in
      bind (sort_items (map encode_item items)) (fun sorted =>
      bind (sequence (map emit_item sorted)) (fun parts =>
      Return (str "{" ++ join (str ", ") parts ++ str "}")))
  | PObject _ => Raise TypeError
  end.

End Json.

(** ** The [hashlib] module *)

Module Hashlib.
Import Py.

(** *** Words and blocks

    A [w]-bit word is a [Z] in [0, 2^w); sums and left shifts are
    reduced modulo [2^w]. *)

Definition wrap (w x : Z) : Z := x mod 2 ^ w.
Definition add (w x y : Z) : Z := wrap w (x + y).
Definition rotl (w n x : Z) : Z :=
  Z.lor (wrap w (Z.shiftl x n)) (Z.shiftr x (w - n)).
Definition rotr (w n x : Z) : Z := rotl w (w - n) x.
Definition lnot (w x : Z) : Z := Z.lxor x (2 ^ w - 1).

Fixpoint le_bytes (n : nat) (x : Z) : pybytes :=
  match n with
  | O => []
  | S n' => byte_of_Z x :: le_bytes n' (Z.shiftr x 8)
  end.

Definition be_bytes (n : nat) (x : Z) : pybytes := rev (le_bytes n x).

Definition le_word (bs : pybytes) : Z :=
  fold_right (fun b acc => Z_of_byte b + 256 * acc) 0 bs.

Definition be_word (bs : pybytes) : Z :=
  fold_left (fun acc b => 256 * acc + Z_of_byte b) bs 0.

(** The first [count] chunks of [n] elements. *)
Fixpoint chunks {A} (count n : nat) (l : list A) : list (list A) :=
  match count with
  | O => []
  | S count' => firstn n l :: chunks count' n (skipn n l)
  end.

Definition blocks (n : nat) (bs : pybytes) : list pybytes :=
  chunks (List.length bs / n) n bs.

Definition nthw (l : list Z) (i : nat) : Z := nth i l 0.

Fixpoint update (l : list Z) (i : nat) (x : Z) : list Z :=
  match l, i with
  | [], _ => []
  | _ :: l', O => x :: l'
  | y :: l', S i' => y :: update l' i' x
  end.

(** The first primes, by trial division. *)
Fixpoint primes_from (fuel : nat) (n : Z) (count : nat) (found : list Z)
  : list Z :=
  match fuel, count with
  | S fuel', S count' =>
      if forallb (fun p => negb (n mod p =? 0)) found
      then primes_from fuel' (n + 1) count' (n :: found)
      else primes_from fuel' (n + 1) count found
  | _, _ => rev found
  end.

Definition first_primes (count : nat) : list Z := primes_from 1000 2 count [].

(** The integer part of the [k]-th root of [n], bit by bit. *)
Fixpoint root_bits (k n : Z) (bits : nat) (r : Z) : Z :=
  match bits with
  | O => r
  | S bits' =>
      let c := r + 2 ^ Z.of_nat bits' in
      root_bits k n bits' (if c ^ k <=? n then c else r)
  end.

Definition iroot (k n : Z) : Z := root_bits k n (S (Z.to_nat (Z.log2 n))) 0.

(** The first [bits] bits of the fractional part of the [k]-th root of
    [p]. *)
Definition frac_root (k bits p : Z) : Z :=
  iroot k (p * 2 ^ (k * bits)) mod 2 ^ bits.

(** Merkle-Damgard strengthening: a [0x80] octet, zeros up to the last
    [lenbytes] octets of a block, and the message length in bits. *)
Definition md_pad (block lenbytes : nat) (big_endian : bool) (msg : pybytes)
  : pybytes :=
  let l := List.length msg in
  let k := ((block - (l + 1 + lenbytes) mod block) mod block)%nat in
  let bits := 8 * Z.of_nat l in
  msg ++ [Byte.x80] ++ repeat Byte.x00 k
      ++ (if big_endian then be_bytes lenbytes bits else le_bytes lenbytes bits).

(** *** MD5 (RFC 1321) *)

Module MD5.

Definition K : list Z :=
  [0xd76aa478; 0xe8c7b756; 0x242070db; 0xc1bdceee; 0xf57c0faf; 0x4787c62a;
   0xa8304613; 0xfd469501; 0x698098d8; 0x8b44f7af; 0xffff5bb1; 0x895cd7be;
   0x6b901122; 0xfd987193; 0xa679438e; 0x49b40821; 0xf61e2562; 0xc040b340;
   0x265e5a51; 0xe9b6c7aa; 0xd62f105d; 0x02441453; 0xd8a1e681; 0xe7d3fbc8;
   0x21e1cde6; 0xc33707d6; 0xf4d50d87; 0x455a14ed; 0xa9e3e905; 0xfcefa3f8;
   0x676f02d9; 0x8d2a4c8a; 0xfffa3942; 0x8771f681; 0x6d9d6122; 0xfde5380c;
   0xa4beea44; 0x4bdecfa9; 0xf6bb4b60; 0xbebfbc70; 0x289b7ec6; 0xeaa127fa;
   0xd4ef3085; 0x04881d05; 0xd9d4d039; 0xe6db99e5; 0x1fa27cf8; 0xc4ac5665;
   0xf4292244; 0x432aff97; 0xab9423a7; 0xfc93a039; 0x655b59c3; 0x8f0ccc92;
   0xffeff47d; 0x85845dd1; 0x6fa87e4f; 0xfe2ce6e0; 0xa3014314; 0x4e0811a1;
   0xf7537e82; 0xbd3af235; 0x2ad7d2bb; 0xeb86d391].

Definition shifts : list Z :=
  [7; 12; 17; 22; 7; 12; 17; 22; 7; 12; 17; 22; 7; 12; 17; 22;
   5; 9; 14; 20; 5; 9; 14; 20; 5; 9; 14; 20; 5; 9; 14; 20;
   4; 11; 16; 23; 4; 11; 16; 23; 4; 11; 16; 23; 4; 11; 16; 23;
   6; 10; 15; 21; 6; 10; 15; 21; 6; 10; 15; 21; 6; 10; 15; 21].

Definition state : Type := Z * Z * Z * Z.

Definition init : state := (0x67452301, 0xefcdab89, 0x98badcfe, 0x10325476).

Definition step (M : list Z) (st : state) (i : nat) : state :=
  let '(a, b, c, d) := st in
  let '(f, g) :=
    if (i <? 16)%nat then
      (Z.lor (Z.land b c) (Z.land (lnot 32 b) d), i)
    else if (i <? 32)%nat then
      (Z.lor (Z.land d b) (Z.land (lnot 32 d) c), ((5 * i + 1) mod 16)%nat)
    else if (i <? 48)%nat then
      (Z.lxor (Z.lxor b c) d, ((3 * i + 5) mod 16)%nat)
    else
      (Z.lxor c (Z.lor b (lnot 32 d)), ((7 * i) mod 16)%nat) in
  let t := add 32 (add 32 (add 32 f a) (nthw K i)) (nthw M g) in
  (d, add 32 b (rotl 32 (nthw shifts i) t), b, c).

Definition compress (st : state) (block : pybytes) : state :=
  let M := map le_word (chunks 16 4 block) in
  let '(a, b, c, d) := st in
  let '(a', b', c', d') := fold_left (step M) (seq 0 64) st in
  (add 32 a a', add 32 b b', add 32 c c', add 32 d d').

Definition digest (msg : pybytes) : pybytes :=
  let '(a, b, c, d) := fold_left compress (blocks 64 (md_pad 64 8 false msg)) init in
  le_bytes 4 a ++ le_bytes 4 b ++ le_bytes 4 c ++ le_bytes 4 d.

End MD5.

(** *** SHA-1 (FIPS 180-4) *)

Module SHA1.

Definition state : Type := Z * Z * Z * Z * Z.

Definition init : state :=
  (0x67452301, 0xefcdab89, 0x98badcfe, 0x10325476, 0xc3d2e1f0).

(** The message schedule, most recent word first. *)
Fixpoint schedule (n : nat) (w : list Z) : list Z :=
  match n with
  | O => w
  | S n' =>
      let x := Z.lxor (Z.lxor (nthw w 2) (nthw w 7))
                      (Z.lxor (nthw w 13) (nthw w 15)) in
      schedule n' (rotl 32 1 x :: w)
  end.

Definition step (st : state) (tw : nat * Z) : state :=
  let '(a, b, c, d, e) := st in
  let '(t, w) := tw in
  let '(f, k) :=
    if (t <? 20)%nat then
      (Z.lor (Z.land b c) (Z.land (lnot 32 b) d), 0x5a827999)
    else if (t <? 40)%nat then
      (Z.lxor (Z.lxor b c) d, 0x6ed9eba1)
    else if (t <? 60)%nat then
      (Z.lor (Z.lor (Z.land b c) (Z.land b d)) (Z.land c d), 0x8f1bbcdc)
    else
      (Z.lxor (Z.lxor b c) d, 0xca62c1d6) in
  let tmp := add 32 (add 32 (add 32 (add 32 (rotl 32 5 a) f) e) k) w in
  (tmp, a, rotl 32 30 b, c, d).

Definition compress (st : state) (block : pybytes) : state :=
  let W := rev (schedule 64 (rev (map be_word (chunks 16 4 block)))) in
  let '(a, b, c, d, e) := st in
  let '(a', b', c', d', e') := fold_left step (combine (seq 0 80) W) st in
  (add 32 a a', add 32 b b', add 32 c c', add 32 d d', add 32 e e').

Definition digest (msg : pybytes) : pybytes :=
  let '(a, b, c, d, e) :=
    fold_left compress (blocks 64 (md_pad 64 8 true msg)) init in
  be_bytes 4 a ++ be_bytes 4 b ++ be_bytes 4 c ++ be_bytes 4 d ++ be_bytes 4 e.

End SHA1.

(** *** SHA-2 (FIPS 180-4)

    SHA-224 and SHA-256 work on 32-bit words, SHA-384 and SHA-512 on
    64-bit words; the two compression functions differ in their
    constants, rotation amounts and number of rounds only. *)

Module SHA2.

Record params : Type := {
  wbits : Z;               (* word size in bits *)
  wbytes : nat;            (* word size in octets *)
  lenbytes : nat;          (* size of the length field of the padding *)
  K : list Z;              (* round constants, one per round *)
  Sig0 : Z * Z * Z;        (* rotations of the big sigma functions *)
  Sig1 : Z * Z * Z;
  sig0 : Z * Z * Z;        (* two rotations and a shift *)
  sig1 : Z * Z * Z
}.

(** The round constants are the first 32 (or 64) bits of the
    fractional parts of the cube roots of the first primes. *)
Definition K256 : list Z :=
  Eval vm_compute in map (frac_root 3 32) (first_primes 64).

Definition K512 : list Z :=
  Eval vm_compute in map (frac_root 3 64) (first_primes 80).

Definition P32 : params :=
  {| wbits := 32; wbytes := 4; lenbytes := 8; K := K256;
     Sig0 := (2, 13, 22); Sig1 := (6, 11, 25);
     sig0 := (7, 18, 3); sig1 := (17, 19, 10) |}.

Definition P64 : params :=
  {| wbits := 64; wbytes := 8; lenbytes := 16; K := K512;
     Sig0 := (28, 34, 39); Sig1 := (14, 18, 41);
     sig0 := (1, 8, 7); sig1 := (19, 61, 6) |}.

Definition state : Type := Z * Z * Z * Z * Z * Z * Z * Z.

Definition IV224 : state :=
  (0xc1059ed8, 0x367cd507, 0x3070dd17, 0xf70e5939,
   0xffc00b31, 0x68581511, 0x64f98fa7, 0xbefa4fa4).

Definition IV256 : state :=
  (0x6a09e667, 0xbb67ae85, 0x3c6ef372, 0xa54ff53a,
   0x510e527f, 0x9b05688c, 0x1f83d9ab, 0x5be0cd19).

Definition IV384 : state :=
  (0xcbbb9d5dc1059ed8, 0x629a292a367cd507,
   0x9159015a3070dd17, 0x152fecd8f70e5939,
   0x67332667ffc00b31, 0x8eb44a8768581511,
   0xdb0c2e0d64f98fa7, 0x47b5481dbefa4fa4).

Definition IV512 : state :=
  (0x6a09e667f3bcc908, 0xbb67ae8584caa73b,
   0x3c6ef372fe94f82b, 0xa54ff53a5f1d36f1,
   0x510e527fade682d1, 0x9b05688c2b3e6c1f,
   0x1f83d9abfb41bd6b, 0x5be0cd19137e2179).

Section Compression.
Variable P : params.

Let w := wbits P.

Definition rot3 (r : Z * Z * Z) (x : Z) : Z :=
  let '(a, b, c) := r in
  Z.lxor (Z.lxor (rotr w a x) (rotr w b x)) (rotr w c x).

Definition rot2shift (r : Z * Z * Z) (x : Z) : Z :=
  let '(a, b, c) := r in
  Z.lxor (Z.lxor (rotr w a x) (rotr w b x)) (Z.shiftr x c).

Definition Ch (x y z : Z) : Z :=
  Z.lxor (Z.land x y) (Z.land (lnot w x) z).

Definition Maj (x y z : Z) : Z :=
  Z.lxor (Z.lxor (Z.land x y) (Z.land x z)) (Z.land y z).

(** The message schedule, most recent word first. *)
Fixpoint schedule (n : nat) (ws : list Z) : list Z :=
  match n with
  | O => ws
  | S n' =>
      let x := add w (add w (add w (rot2shift (sig1 P) (nthw ws 1)) (nthw ws 6))
                            (rot2shift (sig0 P) (nthw ws 14))) (nthw ws 15) in
      schedule n' (x :: ws)
  end.

Definition step (st : state) (kw : Z * Z) : state :=
  let '(a, b, c, d, e, f, g, h) := st in
  let '(k, x) := kw in
  let t1 := add w (add w (add w (add w h (rot3 (Sig1 P) e)) (Ch e f g)) k) x in
  let t2 := add w (rot3 (Sig0 P) a) (Maj a b c) in
  (add w t1 t2, a, b, c, add w d t1, e, f, g).

Definition compress (st : state) (block : pybytes) : state :=
  let W := rev (schedule (List.length (K P) - 16)
                  (rev (map be_word (chunks 16 (wbytes P) block)))) in
  let '(a, b, c, d, e, f, g, h) := st in
  let '(a', b', c', d', e', f', g', h') :=
    fold_left step (combine (K P) W) st in
  (add w a a', add w b b', add w c c', add w d d',
   add w e e', add w f f', add w g g', add w h h').

Definition hash (iv : state) (msg : pybytes) : state :=
  fold_left compress
    (blocks (16 * wbytes P) (md_pad (16 * wbytes P) (lenbytes P) true msg)) iv.

End Compression.

Definition sha256 (msg : pybytes) : pybytes :=
  let '(a, b, c, d, e, f, g, h) := hash P32 IV256 msg in
  be_bytes 4 a ++ be_bytes 4 b ++ be_bytes 4 c ++ be_bytes 4 d
    ++ be_bytes 4 e ++ be_bytes 4 f ++ be_bytes 4 g ++ be_bytes 4 h.

Definition sha224 (msg : pybytes) : pybytes :=
  let '(a, b, c, d, e, f, g, _) := hash P32 IV224 msg in
  be_bytes 4 a ++ be_bytes 4 b ++ be_bytes 4 c ++ be_bytes 4 d
    ++ be_bytes 4 e ++ be_bytes 4 f ++ be_bytes 4 g.

Definition sha512 (msg : pybytes) : pybytes :=
  let '(a, b, c, d, e, f, g, h) := hash P64 IV512 msg in
  be_bytes 8 a ++ be_bytes 8 b ++ be_bytes 8 c ++ be_bytes 8 d
    ++ be_bytes 8 e ++ be_bytes 8 f ++ be_bytes 8 g ++ be_bytes 8 h.

Definition sha384 (msg : pybytes) : pybytes :=
  let '(a, b, c, d, e, f, _, _) := hash P64 IV384 msg in
  be_bytes 8 a ++ be_bytes 8 b ++ be_bytes 8 c ++ be_bytes 8 d
    ++ be_bytes 8 e ++ be_bytes 8 f.

End SHA2.

(** *** SHA-3 (FIPS 202)

    The state of Keccak-f[1600] is a list of 25 lanes of 64 bits, lane
    [(x, y)] at index [x + 5 * y]. *)

Module SHA3.

Definition RC : list Z :=
  [0x0000000000000001; 0x0000000000008082; 0x800000000000808a;
   0x8000000080008000; 0x000000000000808b; 0x0000000080000001;
   0x8000000080008081; 0x8000000000008009; 0x000000000000008a;
   0x0000000000000088; 0x0000000080008009; 0x000000008000000a;
   0x000000008000808b; 0x800000000000008b; 0x8000000000008089;
   0x8000000000008003; 0x8000000000008002; 0x8000000000000080;
   0x000000000000800a; 0x800000008000000a; 0x8000000080008081;
   0x8000000000008080; 0x0000000080000001; 0x8000000080008008].

Definition ROT : list Z :=
  [0; 1; 62; 28; 27; 36; 44; 6; 55; 20; 3; 10; 43;
   25; 39; 41; 45; 15; 21; 8; 18; 2; 61; 56; 14].

Definition lane (A : list Z) (x y : nat) : Z :=
  nthw A ((x mod 5) + 5 * (y mod 5)).

Definition theta (A : list Z) : list Z :=
  let C := map (fun x =>
    Z.lxor (Z.lxor (Z.lxor (lane A x 0) (lane A x 1))
                   (Z.lxor (lane A x 2) (lane A x 3))) (lane A x 4))
    (seq 0 5) in
  let D := map (fun x =>
    Z.lxor (nthw C ((x + 4) mod 5)) (rotl 64 1 (nthw C ((x + 1) mod 5))))
    (seq 0 5) in
  map (fun i => Z.lxor (nthw A i) (nthw D (i mod 5))) (seq 0 25).

(** rho and pi: lane [(x, y)], rotated, moves to [(y, 2x + 3y)]; read
    from the target, lane [(x', y')] comes from [(x' + 3y', x')]. *)
Definition rho_pi (A : list Z) : list Z :=
  map (fun i =>
    let src := (((i mod 5 + 3 * (i / 5)) mod 5) + 5 * (i mod 5))%nat in
    rotl 64 (nthw ROT src) (nthw A src)) (seq 0 25).

Definition chi (B : list Z) : list Z :=
  map (fun i =>
    let x := (i mod 5)%nat in
    let y := (i / 5)%nat in
    Z.lxor (lane B x y)
           (Z.land (lnot 64 (lane B (x + 1) y)) (lane B (x + 2) y)))
    (seq 0 25).

Definition round (A : list Z) (rc : Z) : list Z :=
  let A' := chi (rho_pi (theta A)) in
  update A' 0 (Z.lxor (nthw A' 0) rc).

Definition keccak_f (A : list Z) : list Z := fold_left round RC A.

(** Padding of SHA-3: the suffix bits [01], then [pad10*1]. *)
Definition pad (rate : nat) (msg : pybytes) : pybytes :=
  let k := (rate - List.length msg mod rate)%nat in
  if (k =? 1)%nat then msg ++ [Byte.x86]
  else msg ++ [Byte.x06] ++ repeat Byte.x00 (k - 2) ++ [Byte.x80].

Definition absorb (rate : nat) (A : list Z) (block : pybytes) : list Z :=
  let ws := map le_word (chunks (rate / 8) 8 block) in
  keccak_f (map (fun i => Z.lxor (nthw A i) (nthw ws i)) (seq 0 25)).

(** The digests are shorter than the rate: one squeeze. *)
Definition sponge (rate outlen : nat) (msg : pybytes) : pybytes :=
  let A := fold_left (absorb rate) (blocks rate (pad rate msg)) (repeat 0 25) in
  firstn outlen
    (flat_map (fun i => le_bytes 8 (nthw A i)) (seq 0 ((outlen + 7) / 8))).

Definition sha3_224 : pybytes -> pybytes := sponge 144 28.
Definition sha3_256 : pybytes -> pybytes := sponge 136 32.
Definition sha3_384 : pybytes -> pybytes := sponge 104 48.
Definition sha3_512 : pybytes -> pybytes := sponge 72 64.

End SHA3.

(** *** BLAKE2 (RFC 7693), unkeyed, with the default digest sizes *)

Module BLAKE2.

Definition SIGMA : list (list nat) :=
  [[0; 1; 2; 3; 4; 5; 6; 7; 8; 9; 10; 11; 12; 13; 14; 15];
   [14; 10; 4; 8; 9; 15; 13; 6; 1; 12; 0; 2; 11; 7; 5; 3];
   [11; 8; 12; 0; 5; 2; 15; 13; 10; 14; 3; 6; 7; 1; 9; 4];
   [7; 9; 3; 1; 13; 12; 11; 14; 2; 6; 5; 10; 4; 0; 15; 8];
   [9; 0; 5; 7; 2; 4; 10; 15; 14; 1; 11; 12; 6; 8; 3; 13];
   [2; 12; 6; 10; 0; 11; 8; 3; 4; 13; 7; 5; 15; 14; 1; 9];
   [12; 5; 1; 15; 14; 13; 4; 10; 0; 7; 6; 3; 9; 2; 8; 11];
   [13; 11; 7; 14; 12; 1; 3; 9; 5; 0; 15; 4; 8; 6; 2; 10];
   [6; 15; 14; 9; 11; 3; 0; 8; 12; 2; 13; 7; 1; 4; 10; 5];
   [10; 2; 8; 4; 7; 6; 1; 5; 15; 11; 9; 14; 3; 12; 13; 0]]%nat.

Record params : Type := {
  wbits : Z;
  wbytes : nat;
  rounds : nat;
  rots : Z * Z * Z * Z;
  IV : list Z;
  outlen : nat
}.

Definition Pb : params :=
  {| wbits := 64; wbytes := 8; rounds := 12; rots := (32, 24, 16, 63);
     IV := [0x6a09e667f3bcc908; 0xbb67ae8584caa73b;
            0x3c6ef372fe94f82b; 0xa54ff53a5f1d36f1;
            0x510e527fade682d1; 0x9b05688c2b3e6c1f;
            0x1f83d9abfb41bd6b; 0x5be0cd19137e2179];
     outlen := 64 |}.

Definition Ps : params :=
  {| wbits := 32; wbytes := 4; rounds := 10; rots := (16, 12, 8, 7);
     IV := [0x6a09e667; 0xbb67ae85; 0x3c6ef372; 0xa54ff53a;
            0x510e527f; 0x9b05688c; 0x1f83d9ab; 0x5be0cd19];
     outlen := 32 |}.

Section Compression.
Variable P : params.

Let w := wbits P.

Definition G (v : list Z) (a b c d : nat) (x y : Z) : list Z :=
  let '(r1, r2, r3, r4) := rots P in
  let va := add w (add w (nthw v a) (nthw v b)) x in
  let vd := rotr w r1 (Z.lxor (nthw v d) va) in
  let vc := add w (nthw v c) vd in
  let vb := rotr w r2 (Z.lxor (nthw v b) vc) in
  let va := add w (add w va vb) y in
  let vd := rotr w r3 (Z.lxor vd va) in
  let vc := add w vc vd in
  let vb := rotr w r4 (Z.lxor vb vc) in
  update (update (update (update v a va) b vb) c vc) d vd.

Definition round (m : list Z) (v : list Z) (r : nat) : list Z :=
  let s := nth (r mod 10) SIGMA [] in
  let mw i := nthw m (nth i s O) in
  let v := G v 0 4 8 12 (mw 0%nat) (mw 1%nat) in
  let v := G v 1 5 9 13 (mw 2%nat) (mw 3%nat) in
  let v := G v 2 6 10 14 (mw 4%nat) (mw 5%nat) in
  let v := G v 3 7 11 15 (mw 6%nat) (mw 7%nat) in
  let v := G v 0 5 10 15 (mw 8%nat) (mw 9%nat) in
  let v := G v 1 6 11 12 (mw 10%nat) (mw 11%nat) in
  let v := G v 2 7 8 13 (mw 12%nat) (mw 13%nat) in
  G v 3 4 9 14 (mw 14%nat) (mw 15%nat).

(** [t] is the number of octets fed so far, this block included. *)
Definition F (h : list Z) (block : pybytes) (t : Z) (last : bool) : list Z :=
  let m := map le_word (chunks 16 (wbytes P) block) in
  let v := h ++ IV P in
  let v := update v 12 (Z.lxor (nthw v 12) (wrap w t)) in
  let v := update v 13 (Z.lxor (nthw v 13) (wrap w (Z.shiftr t w))) in
  let v := if last then update v 14 (lnot w (nthw v 14)) else v in
  let v := fold_left (round m) (seq 0 (rounds P)) v in
  map (fun i => Z.lxor (Z.lxor (nthw h i) (nthw v i)) (nthw v (i + 8)))
      (seq 0 8).

(** All blocks but the last are full; the last one, zero padded, is
    the only block of the empty message. *)
Fixpoint absorb (fuel : nat) (h : list Z) (t : Z) (rest : pybytes) : list Z :=
  let bs := (16 * wbytes P)%nat in
  let n := List.length rest in
  match fuel with
  | O => h
  | S fuel' =>
      if (n <=? bs)%nat then
        F h (rest ++ repeat Byte.x00 (bs - n)) (t + Z.of_nat n) true
      else
        absorb fuel' (F h (firstn bs rest) (t + Z.of_nat bs) false)
               (t + Z.of_nat bs) (skipn bs rest)
  end.

Definition hash (msg : pybytes) : pybytes :=
  let h0 := update (IV P) 0
              (Z.lxor (nthw (IV P) 0) (0x01010000 + Z.of_nat (outlen P))) in
  let h := absorb (S (List.length msg)) h0 0 msg in
  flat_map (fun i => le_bytes (wbytes P) (nthw h i)) (seq 0 8).

End Compression.

Definition blake2b : pybytes -> pybytes := hash Pb.
Definition blake2s : pybytes -> pybytes := hash Ps.

End BLAKE2.

(** *** The namespace of the module

    [hashlib] binds a constructor for each of the fourteen algorithms
    of [algorithms_guaranteed]; [getattr] finds them by name, next to
    everything else the module object has. *)

Inductive algorithm : Type :=
| md5 | sha1 | sha224 | sha256 | sha384 | sha512
| blake2b | blake2s
| sha3_224 | sha3_256 | sha3_384 | sha3_512
| shake_128 | shake_256.

(** What a name of the module is bound to, as far as the call
    [hash_alg(stringified).hexdigest()] can tell: a constructor; an
    object that is not callable or a function that rejects a single
    [bytes] argument ([TypeError]); a comparison method of the module
    object, which returns [NotImplemented]. *)
Inductive attribute : Type :=
| Constructor (a : algorithm)
| Rejects
| Comparison.

Definition constructors : list (string * algorithm) :=
  [("md5", md5); ("sha1", sha1); ("sha224", sha224); ("sha256", sha256);
   ("sha384", sha384); ("sha512", sha512);
   ("blake2b", blake2b); ("blake2s", blake2s);
   ("sha3_224", sha3_224); ("sha3_256", sha3_256);
   ("sha3_384", sha3_384); ("sha3_512", sha3_512);
   ("shake_128", shake_128); ("shake_256", shake_256)]%string.

(** The other names of the module in CPython 3.11: its public
    functions and constants, its private helpers, and the attributes
    of every module object. *)
Definition rejecting : list string :=
  ["new"; "algorithms_guaranteed"; "algorithms_available"; "pbkdf2_hmac";
   "scrypt"; "file_digest"; "_hashlib";
   "__all__"; "__annotations__"; "__block_openssl_constructor";
   "__builtin_constructor_cache"; "__builtins__"; "__cached__";
   "__class__"; "__delattr__"; "__dict__"; "__dir__"; "__doc__";
   "__file__"; "__format__"; "__get_builtin_constructor";
   "__getattribute__"; "__getstate__"; "__hash__"; "__init__";
   "__init_subclass__"; "__loader__"; "__name__"; "__new__";
   "__package__"; "__reduce__"; "__reduce_ex__"; "__repr__";
   "__setattr__"; "__sizeof__"; "__spec__"; "__str__"]%string.

Definition comparisons : list string :=
  ["__eq__"; "__ge__"; "__gt__"; "__le__"; "__lt__"; "__ne__";
   "__subclasshook__"]%string.

Definition namespace : list (pystr * attribute) :=
  map (fun na => (str (fst na), Constructor (snd na))) constructors
    ++ map (fun n => (str n, Rejects)) rejecting
    ++ map (fun n => (str n, Comparison)) comparisons.

Fixpoint lookup (name : pystr) (ns : list (pystr * attribute))
  : option attribute :=
  match ns with
  | [] => None
  | (n, v) :: ns' => if str_eqb name n then Some v else lookup name ns'
  end.

(** [getattr(hashlib, name)] *)
Definition getattr (name : pystr) : result attribute :=
  match lookup name namespace with
  | Some v => Return v
  | None => Raise AttributeError
  end.

(** The object a call returns: a hash object that has been fed
    [data], or [NotImplemented]. *)
Inductive object : Type :=
| Hash (a : algorithm) (data : pybytes)
| NotImplemented.

(** [f(data)] *)
Definition call (f : attribute) (data : pybytes) : result object :=
  match f with
  | Constructor a => Return (Hash a data)
  | Rejects => Raise TypeError
  | Comparison => Return NotImplemented
  end.

(** [digest()] without argument; the SHAKE functions have no output
    length of their own and want it as an argument. *)
Definition digest_of (a : algorithm) (data : pybytes) : option pybytes :=
  match a with
  | md5 => Some (MD5.digest data)
  | sha1 => Some (SHA1.digest data)
  | sha224 => Some (SHA2.sha224 data)
  | sha256 => Some (SHA2.sha256 data)
  | sha384 => Some (SHA2.sha384 data)
  | sha512 => Some (SHA2.sha512 data)
  | blake2b => Some (BLAKE2.blake2b data)
  | blake2s => Some (BLAKE2.blake2s data)
  | sha3_224 => Some (SHA3.sha3_224 data)
  | sha3_256 => Some (SHA3.sha3_256 data)
  | sha3_384 => Some (SHA3.sha3_384 data)
  | sha3_512 => Some (SHA3.sha3_512 data)
  | shake_128 | shake_256 => None
  end.

(** The algorithms whose digest has a length of its own. *)
Definition fixed_length (a : algorithm) : bool :=
  match a with
  | shake_128 | shake_256 => false
  | _ => true
  end.

(** The attribute [digest_size] of the hash objects, in octets. *)
Definition digest_size (a : algorithm) : nat :=
  match a with
  | md5 => 16
  | sha1 => 20
  | sha224 | sha3_224 => 28
  | sha256 | sha3_256 | blake2s => 32
  | sha384 | sha3_384 => 48
  | sha512 | sha3_512 | blake2b => 64
  | shake_128 | shake_256 => 0
  end.

(** [o.hexdigest()] *)
Definition hexdigest (o : object) : result pystr :=
  match o with
  | Hash a data =>
      match digest_of a data with
      | Some d => Return (hexlify d)
      | None => Raise TypeError
      end
  | NotImplemented => Raise AttributeError
  end.

End Hashlib.

(** ** [pyhf.utils] *)

Module Utils.
Import Py Json.

(** The two exceptions of [digest]: both are [ValueError]s, told apart
    by their messages. *)
Definition UnserializableInput : exn :=
  ValueError
    (str "The supplied object is not JSON-serializable for calculating a hash.").

Definition UnsupportedAlgorithm (algorithm : pystr) : exn :=
  ValueError
    (algorithm ++ str " is not an algorithm provided by Python's hashlib library.").

(** [json.dumps(obj, sort_keys=True, ensure_ascii=False).encode('utf8')] *)
Definition stringify (obj : pyobj) : result pybytes :=
  bind (dumps obj) encode_utf8.

(** [digest(obj, algorithm='sha256')]; [None] for the algorithm is a
    call that leaves the argument out. *)
Definition digest (obj : pyobj) (algorithm : option pystr) : result pystr :=
  let algorithm :=
    match algorithm with
    | Some a => a
    | None => str "sha256"
    end in
  bind (try_except (stringify obj) CTypeError (Raise UnserializableInput))
    (fun stringified =>
  bind (try_except (Hashlib.getattr algorithm) CAttributeError
          (Raise (UnsupportedAlgorithm algorithm)))
    (fun hash_alg =>
  bind (Hashlib.call hash_alg stringified) Hashlib.hexdigest)).

End Utils.

(** ** Vocabulary of the properties *)

Module Spec.
Import Py Json Utils.

(** The characters of a lowercase hexadecimal string. *)
Definition is_lower_hex (c : N) : bool :=
  ((48 <=? c) && (c <=? 57))%N || ((97 <=? c) && (c <=? 102))%N.

(** The names under which [digest] can return a digest at all: the
    constructors whose [hexdigest] takes no argument. *)
Definition supported (name : pystr) : bool :=
  match Hashlib.getattr name with
  | Return (Hashlib.Constructor a) => Hashlib.fixed_length a
  | _ => false
  end.


(** A string, as a value or as a key, with a surrogate code point. *)
Definition is_surrogate (c : N) : bool := ((55296 <=? c) && (c <=? 57343))%N.

Definition has_surrogate (s : pystr) : bool := existsb is_surrogate s.

Definition key_has_surrogate (k : key) : bool :=
  match k with
  | KStr s => has_surrogate s
  | _ => false
  end.


(** Dicts as the data model has them: string keys, no key twice. *)
Definition is_str_key (k : key) : bool :=
  match k with
  | KStr _ => true
  | _ => false
  end.

Definition same_str_key (a b : key) : bool :=
  match a, b with
  | KStr s, KStr t => str_eqb s t
  | _, _ => false
  end.

Fixpoint distinct_keys (ks : list key) : bool :=
  match ks with
  | [] => true
  | k :: ks' => negb (existsb (same_str_key k) ks') && distinct_keys ks'
  end.

(** The objects of the data model: [None], booleans, numbers, strings
    without surrogates, sequences, and dicts with pairwise different
    string keys. *)
Fixpoint jsonable (o : pyobj) : bool :=
  match o with
  | PNone | PBool _ | PInt _ | PFloat _ => true
  | PStr s => negb (has_surrogate s)
  | PList l | PTuple l => forallb jsonable l
  | PDict items =>
      forallb (fun kv => is_str_key (fst kv)
                         && negb (key_has_surrogate (fst kv))
                         && jsonable (snd kv)) items
      && distinct_keys (map fst items)
  | PObject _ => false
  end.

(** An expression that raises nothing but [TypeError]. *)
Definition raises_only_TypeError {A : Type} (r : result A) : Prop :=
  match r with
  | Return _ => True
  | Raise e => e = TypeError
  end.

(** The order of items with string keys. *)
Definition item_lt {V : Type} (x y : key * V) : Prop :=
  key_lt (fst x) (fst y) = Return true.

Definition str_keys {V : Type} (items : list (key * V)) : Prop :=
  Forall (fun kv => is_str_key (fst kv) = true) items.

(** [quoted "abc"] is the text of the literal between double quotes. *)
Definition quoted (s : string) : pystr := [34%N] ++ str s ++ [34%N].

(** The objects of the examples. *)
Definition two : spec_float := S754_finite false 4503599627370496 (-51).
Definition three : spec_float := S754_finite false 6755399441055744 (-51).
Definition one : spec_float := S754_finite false 4503599627370496 (-52).

(** [{'a': 2.0, 'b': 3.0, 'c': 1.0}] *)
Definition sample : pyobj :=
  PDict [(KStr (str "a"), PFloat two); (KStr (str "b"), PFloat three);
         (KStr (str "c"), PFloat one)].

(** [[1, 2]] and [[2, 1]] *)
Definition list_1_2 : pyobj := PList [PInt 1; PInt 2].
Definition list_2_1 : pyobj := PList [PInt 2; PInt 1].

(** [{"a": 1, "b": 2}] and [{"b": 2, "a": 1}] *)
Definition dict_a_b : list (key * pyobj) :=
  [(KStr (str "a"), PInt 1); (KStr (str "b"), PInt 2)].
Definition dict_b_a : list (key * pyobj) :=
  [(KStr (str "b"), PInt 2); (KStr (str "a"), PInt 1)].

(** [{1: v}] and [{"1": v}] *)
Definition int_keyed (v : pyobj) : pyobj := PDict [(KInt 1, v)].
Definition string_keyed (v : pyobj) : pyobj := PDict [(KStr (str "1"), v)].

End Spec.


(** * The other functions of [pyhf.utils]

    [options_from_eqdelimstring], the two [click] parameter types,
    [citation] and [environment_info] work on strings; what they get
    from outside ([yaml.safe_load], [click.Path], the citation file,
    the [platform] module) is a parameter of their models. *)

(** ** More Python builtins: methods of [str], exceptions *)

Module Text.
Import Py.

(** The exceptions of this part of the module: the ones the code
    handles or lets escape ([OSError] stands for the class with its
    subclasses), [click]'s [BadParameter] with its message, and
    [Other] for an exception of any other class that a library
    raises. *)
Inductive exc : Type :=
| IndexError
| KeyError (key : pystr)
| ValueError
| OSError
| BadParameter (message : pystr)
| Other (cls : pystr).

Inductive outcome (A : Type) : Type :=
| Ok (a : A)
| Err (e : exc).
Arguments Ok {A} a.
Arguments Err {A} e.

Definition and_then {A B} (r : outcome A) (k : A -> outcome B) : outcome B :=
  match r with
  | Ok a => k a
  | Err e => Err e
  end.

(** [try r except C: h], the class [C] given by the exceptions it
    catches. *)
Definition try_except {A} (r : outcome A) (catches : exc -> bool)
    (h : outcome A) : outcome A :=
  match r with
  | Ok a => Ok a
  | Err e => if catches e then h else Err e
  end.

Definition is_IndexError (e : exc) : bool :=
  match e with
  | IndexError => true
  | _ => false
  end.

Definition is_ValueError (e : exc) : bool :=
  match e with
  | ValueError => true
  | _ => false
  end.

Definition is_OSError (e : exc) : bool :=
  match e with
  | OSError => true
  | _ => false
  end.

(** [l[i]] *)
Definition getitem {A} (l : list A) (i : nat) : outcome A :=
  match nth_error l i with
  | Some a => Ok a
  | None => Err IndexError
  end.

(** [a, b = l] *)
Definition unpack2 {A} (l : list A) : outcome (A * A) :=
  match l with
  | [a; b] => Ok (a, b)
  | _ => Err ValueError
  end.

(** [s.split(sep, maxsplit)] for a separator of one character;
    [None] is no limit on the number of splits. *)
Definition cons_head (c : N) (parts : list pystr) : list pystr :=
  match parts with
  | p :: ps => (c :: p) :: ps
  | [] => [[c]]
  end.

Fixpoint split (sep : N) (maxsplit : option nat) (s : pystr) : list pystr :=
  match s with
  | [] => [[]]
  | c :: s' =>
      if (c =? sep)%N then
        match maxsplit with
        | None => [] :: split sep None s'
        | Some (S n) => [] :: split sep (Some n) s'
        | Some O => cons_head c (split sep maxsplit s')
        end
      else cons_head c (split sep maxsplit s')
  end.

(** [c in s], for a character [c]. *)
Definition contains (c : N) (s : pystr) : bool := existsb (N.eqb c) s.

(** [s.count(c)] *)
Definition count (c : N) (s : pystr) : nat := count_occ N.eq_dec s c.

(** [s.replace(old, new)] for [old] of one character. *)
Definition replace (old : N) (new : pystr) (s : pystr) : pystr :=
  flat_map (fun c => if (c =? old)%N then new else [c]) s.

(** [c.isspace()] *)
Definition isspace (c : N) : bool :=
  ((9 <=? c) && (c <=? 13) || (28 <=? c) && (c <=? 32)
   || (c =? 133) || (c =? 160) || (c =? 5760)
   || (8192 <=? c) && (c <=? 8202)
   || (c =? 8232) || (c =? 8233) || (c =? 8239) || (c =? 8287)
   || (c =? 12288))%N.

Fixpoint lstrip (s : pystr) : pystr :=
  match s with
  | c :: s' => if isspace c then lstrip s' else s
  | [] => []
  end.

(** [s.strip()] *)
Definition strip (s : pystr) : pystr := rev (lstrip (rev (lstrip s))).

(** The characters [splitlines] takes for the end of a line. *)
Definition is_linebreak (c : N) : bool :=
  ((10 <=? c) && (c <=? 13) || (28 <=? c) && (c <=? 30)
   || (c =? 133) || (c =? 8232) || (c =? 8233))%N.

(** [s.splitlines()]: [cur] is the line being read, last character
    first; a carriage return takes a line feed that follows with it;
    there is no empty line after the last line break. *)
Fixpoint splitlines_from (cur : pystr) (s : pystr) : list pystr :=
  match s with
  | [] =>
      match cur with
      | [] => []
      | _ => [rev cur]
      end
  | c :: s' =>
      if is_linebreak c then
        rev cur ::
          match s' with
          | c' :: s'' =>
              if (c =? 13)%N && (c' =? 10)%N then splitlines_from [] s''
              else splitlines_from [] s'
          | [] => splitlines_from [] s'
          end
      else splitlines_from (c :: cur) s'
  end.

Definition splitlines (s : pystr) : list pystr := splitlines_from [] s.

(** Dicts from strings to strings: the items in insertion order; a key
    that is set again keeps its place. *)
Definition dict : Type := list (pystr * pystr).

Fixpoint dict_set (k v : pystr) (d : dict) : dict :=
  match d with
  | [] => [(k, v)]
  | (k', v') :: d' =>
      if str_eqb k k' then (k, v) :: d' else (k', v') :: dict_set k v d'
  end.

(** [d[k]] *)
Fixpoint dict_get (k : pystr) (d : dict) : outcome pystr :=
  match d with
  | [] => Err (KeyError k)
  | (k', v') :: d' => if str_eqb k k' then Ok v' else dict_get k d'
  end.

End Text.

(** ** Command line options: [options_from_eqdelimstring] and the
    [click] parameter types *)

Module Cli.
Import Py Text.

Section WithYaml.
(** [yaml.safe_load], with the type of what it returns. *)
Context {Y : Type}.
Variable safe_load : pystr -> outcome Y.

(** [f"{opt.split('=', 1)[0]}: {opt.split('=', 1)[1]}"] *)
Definition option_line (opt : pystr) : outcome pystr :=
  and_then (getitem (split 61 (Some 1%nat) opt) 0) (fun k =>
  and_then (getitem (split 61 (Some 1%nat) opt) 1) (fun v =>
  Ok (k ++ str ": " ++ v))).

(** The generator, as [join] consumes it. *)
Fixpoint option_lines (opts : list pystr) : outcome (list pystr) :=
  match opts with
  | [] => Ok []
  | opt :: rest =>
      and_then (option_line opt) (fun line =>
      and_then (option_lines rest) (fun lines => Ok (line :: lines)))
  end.

Definition options_from_eqdelimstring (opts : list pystr) : outcome Y :=
  and_then (option_lines opts) (fun lines =>
  let document := Json.join [10%N] lines in
  safe_load document).

(** [EqDelimStringParamType.convert]; [self.fail] raises
    [BadParameter] with the message. *)
Definition EqDelimStringParamType_convert (value : pystr) : outcome Y :=
  try_except (options_from_eqdelimstring [value]) is_IndexError
    (Err (BadParameter
            (value ++ str " is not a valid equal-delimited string"))).

End WithYaml.

Section WithPath.
(** [repr] of a string, [click.Path.convert] and
    [click.Path.coerce_path_result], with the types of their
    results. *)
Context {P Q : Type}.
Variable repr : pystr -> pystr.
Variable Path_convert : pystr -> outcome P.
Variable coerce_path_result : pystr -> outcome Q.

(** [VolumeMountPath.convert] *)
Definition VolumeMountPath_convert (value : pystr) : outcome (P * Q) :=
  and_then
    (try_except (unpack2 (split 58 None value)) is_ValueError
       (Err (BadParameter
               (repr value ++ str " is not a valid colon-separated option"))))
    (fun paths =>
  let '(path_host, path_mount) := paths in
  and_then (Path_convert path_host) (fun host =>
  and_then (coerce_path_result path_mount) (fun mount =>
  Ok (host, mount)))).

End WithPath.

End Cli.

(** ** [citation] and [environment_info] *)

Module Info.
Import Py Text.

(** [citation(oneline)], for the text [read_text] of the file
    [data/citation.bib]. *)
Definition citation (read_text : pystr) (oneline : bool) : pystr :=
  let data := strip read_text in
  if oneline then Json.join [] (splitlines data) else data.

(** What [environment_info] asks the interpreter and the system:
    [platform_freedesktop_os_release] is the outcome of the function
    of that name of the [platform] module, [None] when the module has
    none (before Python 3.10); [etc_os_release] is the text of
    [/etc/os-release], [None] when there is no such file. *)
Record host : Type := {
  sys_platform : pystr;
  platform_freedesktop_os_release : option (outcome dict);
  etc_os_release : option pystr;
  mac_ver : pystr;
  system : pystr;
  release : pystr;
  machine : pystr;
  python_implementation : pystr;
  python_version : pystr;
  python_compiler : pystr;
  version : pystr
}.

(** The dict comprehension over the lines of the file. *)
Fixpoint os_release_dict (tokens : list pystr) (d : dict) : outcome dict :=
  match tokens with
  | [] => Ok d
  | token :: rest =>
      and_then (getitem (split 61 None token) 0) (fun k =>
      and_then (getitem (split 61 None token) 1) (fun v =>
      os_release_dict rest (dict_set k (replace 34 [] v) d)))
  end.

(** The function [environment_info] defines for itself when
    [platform] has none. *)
Definition freedesktop_os_release (etc_os_release : option pystr)
  : outcome dict :=
  match etc_os_release with
  | Some os_release_file =>
      let os_release_list := split 10 None os_release_file in
      let os_release_list :=
        filter (fun token => negb (str_eqb [] token)) os_release_list in
      os_release_dict os_release_list []
  | None => Err OSError
  end.

Definition cannot_be_determined : pystr := str "Cannot be determined".

(** What the name [freedesktop_os_release] is bound to after the
    [import] has succeeded or failed, called. *)
Definition call_freedesktop_os_release (h : host) : outcome dict :=
  match platform_freedesktop_os_release h with
  | Some r => r
  | None => freedesktop_os_release (etc_os_release h)
  end.

Definition os_version (h : host) : outcome pystr :=
  if str_eqb (sys_platform h) (str "linux") then
    try_except
      (and_then (call_freedesktop_os_release h) (fun d =>
       and_then (dict_get (str "NAME") d) (fun name =>
       and_then (dict_get (str "VERSION") d) (fun ver =>
       Ok (name ++ str " " ++ ver)))))
      is_OSError (Ok cannot_be_determined)
  else if str_eqb (sys_platform h) (str "darwin") then
    Ok (str "macOS " ++ mac_ver h)
  else Ok cannot_be_determined.

Definition environment_info (h : host) : outcome pystr :=
  and_then (os_version h) (fun os_version =>
  let os_info := str "* os version: " ++ os_version ++ [10%N] in
  let kernel_info :=
    str "* kernel version: " ++ system h ++ str " " ++ release h
      ++ str " " ++ machine h ++ [10%N] in
  let python_info :=
    str "* python version: " ++ python_implementation h ++ str " "
      ++ python_version h ++ str " [" ++ python_compiler h ++ str "]"
      ++ [10%N] in
  let pyhf_version := str "* pyhf version: " ++ version h ++ [10%N] in
  Ok (os_info ++ kernel_info ++ python_info ++ pyhf_version)).

End Info.

(** ** Vocabulary of the further properties *)

Module Shape.
Import Py Json Spec.

(** Dicts with pairwise different string keys, at every depth. *)
Fixpoint str_keyed (o : pyobj) : bool :=
  match o with
  | PList l | PTuple l => forallb str_keyed l
  | PDict items =>
      forallb (fun kv => is_str_key (fst kv) && str_keyed (snd kv)) items
      && distinct_keys (map fst items)
  | _ => true
  end.

(** [reordered v w]: [w] is [v] with the items of its dicts, at any
    depth, inserted in another order. *)
Inductive reordered : pyobj -> pyobj -> Prop :=
| reordered_same (v : pyobj) : reordered v v
| reordered_list (l1 l2 : list pyobj) :
    Forall2 reordered l1 l2 -> reordered (PList l1) (PList l2)
| reordered_tuple (l1 l2 : list pyobj) :
    Forall2 reordered l1 l2 -> reordered (PTuple l1) (PTuple l2)
| reordered_dict (items1 items items2 : list (key * pyobj)) :
    Forall2 (fun a b => fst a = fst b /\ reordered (snd a) (snd b))
            items1 items ->
    Permutation items items2 ->
    reordered (PDict items1) (PDict items2).

(** The keys that [<] compares with one another: strings with
    strings, numbers with numbers, [None] with nothing. *)
Inductive kind : Type := Textual | Numeric | NoneKey.

Definition kind_of (k : key) : kind :=
  match k with
  | KStr _ => Textual
  | KNone => NoneKey
  | KInt _ | KFloat _ | KBool _ => Numeric
  end.

(** The lines of an [os-release] file: [None] is an empty line,
    [Some (k, v)] the line [k=v]. *)
Definition os_release_line (line : option (pystr * pystr)) : pystr :=
  match line with
  | Some (k, v) => k ++ [61%N] ++ v
  | None => []
  end.

(** The key of a line has no equals sign, and a line no line feed. *)
Definition os_release_wf (line : option (pystr * pystr)) : bool :=
  match line with
  | Some (k, v) =>
      negb (Text.contains 61 k) && negb (Text.contains 10 k)
      && negb (Text.contains 10 v)
  | None => true
  end.

(** What is kept of the text [v] after the key: the part before the
    next equals sign, without its double quotes. *)
Definition kept_value (v : pystr) : pystr :=
  Text.replace 34 [] (hd [] (Text.split 61 None v)).

(** The value a file gives a key: that of the last line for the
    key. *)
Fixpoint last_value (k : pystr) (lines : list (option (pystr * pystr)))
  : option pystr :=
  match lines with
  | [] => None
  | line :: rest =>
      match last_value k rest, line with
      | Some v, _ => Some v
      | None, Some (k', v') =>
          if str_eqb k k' then Some (kept_value v') else None
      | None, None => None
      end
  end.

(** The text [environment_info] returns when the version of the
    system is [os_version]. *)
Definition report (h : Info.host) (os_version : pystr) : pystr :=
  (str "* os version: " ++ os_version ++ [10%N])
  ++ (str "* kernel version: " ++ Info.system h ++ str " "
        ++ Info.release h ++ str " " ++ Info.machine h ++ [10%N])
  ++ (str "* python version: " ++ Info.python_implementation h ++ str " "
        ++ Info.python_version h ++ str " [" ++ Info.python_compiler h
        ++ str "]" ++ [10%N])
  ++ (str "* pyhf version: " ++ Info.version h ++ [10%N]).

(** A host as [environment_info] sees it, from its platform, the
    outcome of the [platform] module's function and the text of
    [/etc/os-release]. *)
Definition host_of (platform : pystr)
    (stdlib : option (Text.outcome Text.dict)) (file : option pystr)
  : Info.host :=
  {| Info.sys_platform := platform;
     Info.platform_freedesktop_os_release := stdlib;
     Info.etc_os_release := file;
     Info.mac_ver := str "14.5";
     Info.system := str "Linux";
     Info.release := str "6.1.0";
     Info.machine := str "x86_64";
     Info.python_implementation := str "CPython";
     Info.python_version := str "3.9.18";
     Info.python_compiler := str "GCC 12.2.0";
     Info.version := str "0.7.5" |}.

End Shape.
(** * Properties of [digest] *)

Import Py Json Utils Spec.

(** ** Known digests *)

(** C1: the digests of [{'a': 2.0, 'b': 3.0, 'c': 1.0}] under sha256
    (the default), md5 and sha1 are the ones of the docstring. *)
Theorem digest_known_vectors :
  digest sample None
    = Return (str "a38f6093800189b79bc22ef677baf90c75705af2cfc7ff594159eca54eaa7928")
  /\ digest sample (Some (str "md5"))
    = Return (str "2c0633f242928eb55c3672fed5ba8612")
  /\ digest sample (Some (str "sha1"))
    = Return (str "49a27f499e763766c9545b294880df277be6f545").
Proof. split; [| split]; vm_compute; reflexivity. Qed.

Lemma sample_floats :
  float_of_Z 2 = two /\ float_of_Z 3 = three /\ float_of_Z 1 = one
  /\ is_binary64 two = true /\ is_binary64 three = true
  /\ is_binary64 one = true.
Proof. vm_compute. tauto. Qed.

Lemma sample_stringified :
  dumps sample
  = Return (str "{" ++ quoted "a" ++ str ": 2.0, " ++ quoted "b"
              ++ str ": 3.0, " ++ quoted "c" ++ str ": 1.0}").
Proof. vm_compute. reflexivity. Qed.

(** ** The default algorithm *)

Lemma digest_default v : digest v None = digest v (Some (str "sha256")).
Proof. reflexivity. Qed.

(** C8: leaving the algorithm out is the same as passing ["sha256"]. *)
Theorem digest_default_is_sha256 :
  forall v, digest v None = digest v (Some (str "sha256")).
Proof. exact digest_default. Qed.

(** ** How [digest] unfolds *)

Lemma digest_unfold v name bs f :
  stringify v = Return bs ->
  Hashlib.getattr name = Return f ->
  digest v (Some name) = bind (Hashlib.call f bs) Hashlib.hexdigest.
Proof.
  intros Hs Hg. unfold digest. rewrite Hs, Hg. reflexivity.
Qed.

Lemma digest_of_stringify v w algorithm :
  stringify v = stringify w -> digest v algorithm = digest w algorithm.
Proof. intros H. unfold digest. rewrite H. reflexivity. Qed.

Lemma supported_inv name :
  supported name = true ->
  exists a, Hashlib.getattr name = Return (Hashlib.Constructor a)
            /\ Hashlib.fixed_length a = true.
Proof.
  unfold supported.
  destruct (Hashlib.getattr name) as [[a| |]|e]; try discriminate.
  intros H. exists a. split; [reflexivity | exact H].
Qed.

(** ** Order of sequences *)

Lemma list_1_2_stringified :
  stringify list_1_2 = Return (map byte_of_Z [91; 49; 44; 32; 50; 93]).
Proof. vm_compute. reflexivity. Qed.

Lemma list_2_1_stringified :
  stringify list_2_1 = Return (map byte_of_Z [91; 50; 44; 32; 49; 93]).
Proof. vm_compute. reflexivity. Qed.

(** C5: under every supported algorithm the digests of [[1, 2]] and
    [[2, 1]] differ. *)
Theorem digest_sequence_order_sensitive :
  forall name,
    supported name = true ->
    digest list_1_2 (Some name) <> digest list_2_1 (Some name).
Proof.
  intros name H.
  destruct (supported_inv name H) as (a & Hg & Hf).
  rewrite (digest_unfold _ _ _ _ list_1_2_stringified Hg).
  rewrite (digest_unfold _ _ _ _ list_2_1_stringified Hg).
  destruct a; try discriminate Hf; vm_compute; discriminate.
Qed.

Lemma digest_sequence_order_sensitive_witness :
  supported (str "sha256") = true
  /\ digest list_1_2 (Some (str "sha256")) <> digest list_2_1 (Some (str "sha256")).
Proof.
  split; [reflexivity | apply digest_sequence_order_sensitive; reflexivity].
Defined.

(** ** Keys are coerced to strings *)

(** C10: the dicts [{1: v}] and [{"1": v}] are different objects with
    the same JSON text, hence the same digest under every algorithm;
    for [v = 0] that digest exists. *)
Theorem digest_int_key_collides_with_str_key :
  (forall v,
      int_keyed v <> string_keyed v
      /\ dumps (int_keyed v) = dumps (string_keyed v)
      /\ forall algorithm,
          digest (int_keyed v) algorithm = digest (string_keyed v) algorithm)
  /\ digest (int_keyed (PInt 0)) None
     = Return (str "a9232a73d0fd7ca90e99d3f43f1fac45c0614c1502283f4af437fee4c9b7094f").
Proof.
  split.
  - intros v.
    assert (E : dumps (int_keyed v) = dumps (string_keyed v)) by reflexivity.
    split; [discriminate | split; [exact E |]].
    intros algorithm. apply digest_of_stringify.
    unfold stringify. rewrite E. reflexivity.
  - vm_compute. reflexivity.
Qed.

(** ** Shape of the digest *)

Lemma hexlify_length bs : List.length (hexlify bs) = (2 * List.length bs)%nat.
Proof.
  induction bs as [|b bs IH]; [reflexivity |].
  cbn [hexlify flat_map hex_byte List.length app] in *.
  fold (hexlify bs). rewrite IH. lia.
Qed.

Lemma hex_byte_lower b : Forall (fun c => is_lower_hex c = true) (hex_byte b).
Proof. destruct b; repeat constructor. Qed.

Lemma hexlify_lower bs : Forall (fun c => is_lower_hex c = true) (hexlify bs).
Proof.
  induction bs as [|b bs IH]; [constructor |].
  unfold hexlify. cbn [flat_map]. apply Forall_app.
  split; [apply hex_byte_lower | exact IH].
Qed.

Lemma md5_length data : List.length (Hashlib.MD5.digest data) = 16%nat.
Proof.
  unfold Hashlib.MD5.digest.
  destruct (fold_left _ _ _) as [[[a b] c] d]. reflexivity.
Qed.

Lemma sha1_length data : List.length (Hashlib.SHA1.digest data) = 20%nat.
Proof.
  unfold Hashlib.SHA1.digest.
  destruct (fold_left _ _ _) as [[[[a b] c] d] e]. reflexivity.
Qed.

Lemma sha2_lengths data :
  List.length (Hashlib.SHA2.sha224 data) = 28%nat
  /\ List.length (Hashlib.SHA2.sha256 data) = 32%nat
  /\ List.length (Hashlib.SHA2.sha384 data) = 48%nat
  /\ List.length (Hashlib.SHA2.sha512 data) = 64%nat.
Proof.
  unfold Hashlib.SHA2.sha224, Hashlib.SHA2.sha256,
    Hashlib.SHA2.sha384, Hashlib.SHA2.sha512.
  split; [| split; [| split]];
    destruct (Hashlib.SHA2.hash _ _ _) as [[[[[[[a b] c] d] e] f] g] h];
    reflexivity.
Qed.

Lemma sha3_lengths data :
  List.length (Hashlib.SHA3.sha3_224 data) = 28%nat
  /\ List.length (Hashlib.SHA3.sha3_256 data) = 32%nat
  /\ List.length (Hashlib.SHA3.sha3_384 data) = 48%nat
  /\ List.length (Hashlib.SHA3.sha3_512 data) = 64%nat.
Proof.
  unfold Hashlib.SHA3.sha3_224, Hashlib.SHA3.sha3_256,
    Hashlib.SHA3.sha3_384, Hashlib.SHA3.sha3_512, Hashlib.SHA3.sponge.
  split; [| split; [| split]];
    match goal with
    | |- context [fold_left ?f ?l ?i] => generalize (fold_left f l i)
    end; intros A; reflexivity.
Qed.

Lemma blake2_lengths data :
  List.length (Hashlib.BLAKE2.blake2b data) = 64%nat
  /\ List.length (Hashlib.BLAKE2.blake2s data) = 32%nat.
Proof.
  unfold Hashlib.BLAKE2.blake2b, Hashlib.BLAKE2.blake2s, Hashlib.BLAKE2.hash.
  split;
    match goal with
    | |- context [Hashlib.BLAKE2.absorb ?p ?n ?h ?t ?m] =>
        generalize (Hashlib.BLAKE2.absorb p n h t m)
    end; intros h; reflexivity.
Qed.

Lemma digest_of_length a data d :
  Hashlib.digest_of a data = Some d ->
  List.length d = Hashlib.digest_size a.
Proof.
  pose proof (sha2_lengths data) as (H224 & H256 & H384 & H512).
  pose proof (sha3_lengths data) as (K224 & K256 & K384 & K512).
  pose proof (blake2_lengths data) as (Bb & Bs).
  pose proof (md5_length data) as M. pose proof (sha1_length data) as S1.
  destruct a; cbn [Hashlib.digest_of Hashlib.digest_size];
    intros E; inversion E; subst d; assumption.
Qed.

Lemma digest_of_fixed a data :
  Hashlib.fixed_length a = true ->
  exists d, Hashlib.digest_of a data = Some d.
Proof.
  destruct a; cbn [Hashlib.digest_of]; intros H;
    try discriminate H; eexists; reflexivity.
Qed.

(** The digest under a supported name, for an object that can be
    stringified: the lowercase hexadecimal form of the hash, two
    characters for each of its octets. *)
Lemma digest_supported v bs name a :
  stringify v = Return bs ->
  Hashlib.getattr name = Return (Hashlib.Constructor a) ->
  Hashlib.fixed_length a = true ->
  exists s, digest v (Some name) = Return s
            /\ List.length s = (2 * Hashlib.digest_size a)%nat
            /\ Forall (fun c => is_lower_hex c = true) s.
Proof.
  intros Hs Hg Hf.
  destruct (digest_of_fixed a bs Hf) as [d Hd].
  exists (hexlify d). split; [| split].
  - rewrite (digest_unfold _ _ _ _ Hs Hg).
    cbn [Hashlib.call bind Hashlib.hexdigest]. rewrite Hd. reflexivity.
  - rewrite hexlify_length, (digest_of_length _ _ _ Hd). reflexivity.
  - apply hexlify_lower.
Qed.

(** C7: for an object that can be stringified the digest is a
    lowercase hexadecimal string of twice as many characters as the
    hash has octets: 64 for sha256, 40 for sha1, 32 for md5. *)
Theorem digest_is_lowercase_hex :
  forall v bs,
    stringify v = Return bs ->
    (forall name a,
        Hashlib.getattr name = Return (Hashlib.Constructor a) ->
        Hashlib.fixed_length a = true ->
        exists s, digest v (Some name) = Return s
                  /\ List.length s = (2 * Hashlib.digest_size a)%nat
                  /\ Forall (fun c => is_lower_hex c = true) s)
    /\ (exists s, digest v (Some (str "sha256")) = Return s
                  /\ List.length s = 64%nat
                  /\ Forall (fun c => is_lower_hex c = true) s)
    /\ (exists s, digest v (Some (str "sha1")) = Return s
                  /\ List.length s = 40%nat
                  /\ Forall (fun c => is_lower_hex c = true) s)
    /\ (exists s, digest v (Some (str "md5")) = Return s
                  /\ List.length s = 32%nat
                  /\ Forall (fun c => is_lower_hex c = true) s).
Proof.
  intros v bs Hs. split; [| split; [| split]].
  - intros name a Hg Hf. exact (digest_supported v bs name a Hs Hg Hf).
  - exact (digest_supported v bs (str "sha256") Hashlib.sha256 Hs eq_refl eq_refl).
  - exact (digest_supported v bs (str "sha1") Hashlib.sha1 Hs eq_refl eq_refl).
  - exact (digest_supported v bs (str "md5") Hashlib.md5 Hs eq_refl eq_refl).
Qed.

Lemma digest_is_lowercase_hex_witness :
  stringify list_1_2 = Return (map byte_of_Z [91; 49; 44; 32; 50; 93])
  /\ exists s, digest list_1_2 (Some (str "sha256")) = Return s
               /\ List.length s = 64%nat
               /\ Forall (fun c => is_lower_hex c = true) s.
Proof.
  split; [vm_compute; reflexivity |].
  exact (proj1 (proj2 (digest_is_lowercase_hex list_1_2
                         (map byte_of_Z [91; 49; 44; 32; 50; 93])
                         list_1_2_stringified))).
Defined.

(** ** The order of strings *)

Lemma str_lt_irrefl a : str_lt a a = false.
Proof.
  induction a as [|x a IH]; [reflexivity |].
  cbn [str_lt]. rewrite N.ltb_irrefl. exact IH.
Qed.

Lemma str_lt_trans a b c :
  str_lt a b = true -> str_lt b c = true -> str_lt a c = true.
Proof.
  revert b c. induction a as [|x a IH]; intros [|y b] [|z c];
    cbn [str_lt]; try discriminate; try reflexivity.
  destruct (N.ltb_spec x y), (N.ltb_spec y x), (N.ltb_spec y z),
    (N.ltb_spec z y), (N.ltb_spec x z), (N.ltb_spec z x);
    try discriminate; try reflexivity; try lia.
  apply IH.
Qed.

Lemma str_lt_total a b :
  str_lt a b = false -> str_lt b a = false -> a = b.
Proof.
  revert b. induction a as [|x a IH]; intros [|y b];
    cbn [str_lt]; try discriminate; try reflexivity.
  destruct (N.ltb_spec x y), (N.ltb_spec y x); try discriminate; try lia.
  intros H1 H2. assert (x = y) by lia. subst y.
  f_equal. apply IH; assumption.
Qed.

(** ** Sorting the items of a dict *)

Section SortingFacts.
Context {V : Type}.
Implicit Types (x y : key * V) (l : list (key * V)).

Lemma insert_item_perm x l l' :
  insert_item x l = Return l' -> Permutation (x :: l) l'.
Proof.
  revert l'. induction l as [|y l IH]; intros l'; cbn [insert_item].
  - intros E. inversion E. apply Permutation_refl.
  - destruct (key_lt (fst y) (fst x)) as [[|]|e]; cbn [bind];
      try discriminate.
    + destruct (insert_item x l) as [r|e]; cbn [bind]; try discriminate.
      intros E. inversion E. subst l'.
      eapply perm_trans; [apply perm_swap |].
      apply perm_skip. apply IH. reflexivity.
    + intros E. inversion E. apply Permutation_refl.
Qed.

Lemma sort_items_perm l l' :
  sort_items l = Return l' -> Permutation l l'.
Proof.
  revert l'. induction l as [|x l IH]; intros l'; cbn [sort_items].
  - intros E. inversion E. apply perm_nil.
  - destruct (sort_items l) as [r|e]; cbn [bind]; try discriminate.
    intros E. apply insert_item_perm in E.
    eapply perm_trans; [| exact E]. apply perm_skip. apply IH. reflexivity.
Qed.

Lemma item_lt_str x y :
  is_str_key (fst x) = true -> is_str_key (fst y) = true ->
  exists s t, fst x = KStr s /\ fst y = KStr t
              /\ key_lt (fst x) (fst y) = Return (str_lt s t).
Proof.
  destruct x as [[s| | | |] vx], y as [[t| | | |] vy]; cbn [fst is_str_key];
    try discriminate.
  intros _ _. exists s, t. repeat split.
Qed.

Lemma item_lt_asym x y :
  is_str_key (fst x) = true -> is_str_key (fst y) = true ->
  item_lt x y -> item_lt y x -> False.
Proof.
  intros Hx Hy. unfold item_lt.
  destruct (item_lt_str x y Hx Hy) as (s & t & Es & Et & E).
  destruct (item_lt_str y x Hy Hx) as (t' & s' & Et' & Es' & E').
  rewrite E, E'. rewrite Es in Es'. rewrite Et in Et'.
  inversion Es'. inversion Et'. subst s' t'.
  intros H1 H2. injection H1 as H1'. injection H2 as H2'.
  pose proof (str_lt_trans _ _ _ H1' H2') as C.
  rewrite str_lt_irrefl in C. discriminate.
Qed.

Lemma item_lt_trans x y z :
  is_str_key (fst x) = true -> is_str_key (fst y) = true ->
  is_str_key (fst z) = true ->
  item_lt x y -> item_lt y z -> item_lt x z.
Proof.
  intros Hx Hy Hz. unfold item_lt.
  destruct (item_lt_str x y Hx Hy) as (s & t & Es & Et & E).
  destruct (item_lt_str y z Hy Hz) as (t' & u & Et' & Eu & E').
  destruct (item_lt_str x z Hx Hz) as (s' & u' & Es' & Eu' & E'').
  rewrite E, E', E''.
  rewrite Es in Es'. rewrite Et in Et'. rewrite Eu in Eu'.
  inversion Es'. inversion Et'. inversion Eu'. subst s' t' u'.
  intros H1 H2. injection H1 as H1'. injection H2 as H2'.
  rewrite (str_lt_trans _ _ _ H1' H2'). reflexivity.
Qed.

(** With string keys the comparison never raises and, the keys being
    different, decides the order. *)
Lemma item_lt_cases x y :
  is_str_key (fst x) = true -> is_str_key (fst y) = true ->
  fst x <> fst y ->
  (key_lt (fst y) (fst x) = Return true /\ item_lt y x)
  \/ (key_lt (fst y) (fst x) = Return false /\ item_lt x y).
Proof.
  intros Hx Hy Hne. unfold item_lt.
  destruct (item_lt_str y x Hy Hx) as (t & s & Et & Es & E).
  destruct (item_lt_str x y Hx Hy) as (s' & t' & Es' & Et' & E').
  rewrite Es in Es'. rewrite Et in Et'.
  inversion Es'. inversion Et'. subst s' t'.
  rewrite E, E'.
  destruct (str_lt t s) eqn:L1; [left; split; reflexivity |].
  right. split; [reflexivity |].
  destruct (str_lt s t) eqn:L2; [reflexivity |].
  exfalso. apply Hne. rewrite Es, Et. f_equal.
  apply str_lt_total; assumption.
Qed.

Lemma insert_item_sorted x l :
  str_keys (x :: l) -> NoDup (map fst (x :: l)) ->
  StronglySorted item_lt l ->
  exists l', insert_item x l = Return l' /\ StronglySorted item_lt l'.
Proof.
  induction l as [|y l IH]; intros Hk Hnd Hs.
  - exists [x]. split; [reflexivity |].
    constructor; constructor.
  - cbn [insert_item].
    inversion Hk as [|? ? Hx Hk']. inversion Hk' as [|? ? Hy Hk''].
    subst.
    inversion Hs as [|? ? Hs' Hall]. subst.
    assert (Hne : fst x <> fst y).
    { cbn [map] in Hnd. inversion Hnd as [|? ? Hnot _]. subst.
      intros E. apply Hnot. left. symmetry. exact E. }
    destruct (item_lt_cases x y Hx Hy Hne) as [[E Hlt] | [E Hlt]];
      rewrite E; cbn [bind].
    + destruct IH as (r & Er & Sr).
      * constructor; assumption.
      * cbn [map] in *. inversion Hnd as [|? ? Hnot Hnd']. subst.
        inversion Hnd' as [|? ? Hnot' Hnd'']. subst.
        constructor; [| assumption].
        intros Hin. apply Hnot. right. exact Hin.
      * exact Hs'.
      * rewrite Er. cbn [bind]. eexists. split; [reflexivity |].
        constructor; [exact Sr |].
        eapply Permutation_Forall; [apply insert_item_perm; exact Er |].
        constructor; assumption.
    + eexists. split; [reflexivity |].
      constructor; [exact Hs |].
      constructor; [exact Hlt |].
      rewrite Forall_forall in Hall, Hk''. apply Forall_forall.
      intros z Hz.
      apply (item_lt_trans x y z Hx Hy (Hk'' z Hz) Hlt (Hall z Hz)).
Qed.

Lemma sort_items_sorted l :
  str_keys l -> NoDup (map fst l) ->
  exists l', sort_items l = Return l' /\ StronglySorted item_lt l'.
Proof.
  induction l as [|x l IH]; intros Hk Hnd.
  - exists []. split; [reflexivity | constructor].
  - cbn [sort_items].
    inversion Hk as [|? ? Hx Hk']. subst.
    cbn [map] in Hnd. inversion Hnd as [|? ? Hnot Hnd']. subst.
    destruct (IH Hk' Hnd') as (r & Er & Sr).
    rewrite Er. cbn [bind].
    pose proof (sort_items_perm _ _ Er) as P.
    apply insert_item_sorted.
    + constructor; [exact Hx |]. unfold str_keys.
      eapply Permutation_Forall; [exact P | exact Hk'].
    + cbn [map]. constructor.
      * intros Hin. apply Hnot.
        eapply Permutation_in; [| exact Hin].
        apply Permutation_map. apply Permutation_sym. exact P.
      * eapply Permutation_NoDup; [| exact Hnd'].
        apply Permutation_map. exact P.
    + exact Sr.
Qed.

(** A list has one sorted arrangement only. *)
Lemma sorted_perm_unique l1 l2 :
  str_keys l1 -> Permutation l1 l2 ->
  StronglySorted item_lt l1 -> StronglySorted item_lt l2 -> l1 = l2.
Proof.
  revert l2. induction l1 as [|a l1 IH]; intros l2 Hk P S1 S2.
  - apply Permutation_nil in P. subst. reflexivity.
  - destruct l2 as [|b l2].
    { apply Permutation_sym, Permutation_nil in P. discriminate. }
    inversion S1 as [|? ? S1' A1]. inversion S2 as [|? ? S2' A2]. subst.
    inversion Hk as [|? ? Ha Hk']. subst.
    assert (Hk2 : str_keys (b :: l2)).
    { unfold str_keys. eapply Permutation_Forall; [exact P | exact Hk]. }
    inversion Hk2 as [|? ? Hb Hk2']. subst.
    assert (a = b).
    { assert (Ia : In a (b :: l2)).
      { eapply Permutation_in; [exact P | left; reflexivity]. }
      assert (Ib : In b (a :: l1)).
      { eapply Permutation_in; [apply Permutation_sym; exact P | left; reflexivity]. }
      destruct Ia as [E | Ia]; [symmetry; exact E |].
      destruct Ib as [E | Ib]; [exact E |].
      exfalso. rewrite Forall_forall in A1, A2.
      exact (item_lt_asym a b Ha Hb (A1 b Ib) (A2 a Ia)). }
    subst b. f_equal.
    apply IH; try assumption.
    eapply Permutation_cons_inv. exact P.
Qed.

(** Sorting forgets the order of insertion. *)
Lemma sort_items_of_perm l1 l2 :
  str_keys l1 -> NoDup (map fst l1) -> Permutation l1 l2 ->
  exists r, sort_items l1 = Return r /\ sort_items l2 = Return r.
Proof.
  intros Hk Hnd P.
  assert (Hk2 : str_keys l2).
  { unfold str_keys. eapply Permutation_Forall; [exact P | exact Hk]. }
  assert (Hnd2 : NoDup (map fst l2)).
  { eapply Permutation_NoDup; [| exact Hnd]. apply Permutation_map. exact P. }
  destruct (sort_items_sorted l1 Hk Hnd) as (r1 & E1 & S1).
  destruct (sort_items_sorted l2 Hk2 Hnd2) as (r2 & E2 & S2).
  exists r1. split; [exact E1 |]. rewrite E2. f_equal.
  symmetry. apply sorted_perm_unique; try assumption.
  - unfold str_keys. eapply Permutation_Forall;
      [apply sort_items_perm; exact E1 | exact Hk].
  - eapply perm_trans; [apply Permutation_sym, sort_items_perm; exact E1 |].
    eapply perm_trans; [exact P |]. apply sort_items_perm. exact E2.
Qed.

End SortingFacts.

(** ** Order of insertion *)

Lemma dumps_dict items :
  dumps (PDict items)
  = bind (sort_items (map (fun kv => (fst kv, dumps (snd kv))) items))
      (fun sorted =>
       bind (sequence (map emit_item sorted)) (fun parts =>
       Return (str "{" ++ join (str ", ") parts ++ str "}"))).
Proof. reflexivity. Qed.

Lemma dumps_list l :
  dumps (PList l)
  = bind (sequence (map dumps l)) (fun parts =>
    Return (str "[" ++ join (str ", ") parts ++ str "]")).
Proof. reflexivity. Qed.

Lemma dumps_tuple l : dumps (PTuple l) = dumps (PList l).
Proof. reflexivity. Qed.

Lemma dumps_dict_of_perm items1 items2 :
  str_keys items1 -> NoDup (map fst items1) -> Permutation items1 items2 ->
  dumps (PDict items1) = dumps (PDict items2).
Proof.
  intros Hk Hnd P. rewrite !dumps_dict.
  set (enc := fun kv : key * pyobj => (fst kv, dumps (snd kv))).
  destruct (sort_items_of_perm (map enc items1) (map enc items2))
    as (r & E1 & E2).
  - unfold str_keys in *. rewrite Forall_forall in *.
    intros kv Hin. apply in_map_iff in Hin.
    destruct Hin as (kv0 & E & Hin). subst kv. cbn [enc fst].
    apply Hk. exact Hin.
  - rewrite map_map. cbn [enc fst]. exact Hnd.
  - apply Permutation_map. exact P.
  - rewrite E1, E2. reflexivity.
Qed.

(** C4: two dicts with string keys that hold the same items, inserted
    in different orders, have the same digest under every algorithm:
    sorting either sequence of items gives the same sequence, in
    increasing order of the keys' code points. *)
Theorem digest_key_order_independent :
  forall items1 items2,
    str_keys items1 -> NoDup (map fst items1) -> Permutation items1 items2 ->
    (forall algorithm,
        digest (PDict items1) algorithm = digest (PDict items2) algorithm)
    /\ exists sorted,
        sort_items items1 = Return sorted
        /\ sort_items items2 = Return sorted
        /\ StronglySorted item_lt sorted.
Proof.
  intros items1 items2 Hk Hnd P. split.
  - intros algorithm. apply digest_of_stringify. unfold stringify.
    rewrite (dumps_dict_of_perm items1 items2 Hk Hnd P). reflexivity.
  - destruct (sort_items_of_perm items1 items2 Hk Hnd P) as (r & E1 & E2).
    destruct (sort_items_sorted items1 Hk Hnd) as (r' & E1' & S).
    exists r. repeat split; try assumption.
    rewrite E1 in E1'. injection E1' as E1'. subst r'. exact S.
Qed.

Lemma digest_key_order_independent_witness :
  str_keys dict_a_b /\ NoDup (map fst dict_a_b)
  /\ Permutation dict_a_b dict_b_a
  /\ digest (PDict dict_a_b) (Some (str "md5"))
     = digest (PDict dict_b_a) (Some (str "md5")).
Proof.
  assert (Hk : str_keys dict_a_b) by (repeat constructor).
  assert (Hnd : NoDup (map fst dict_a_b)).
  { repeat constructor; cbn; intuition discriminate. }
  assert (P : Permutation dict_a_b dict_b_a) by apply perm_swap.
  split; [exact Hk | split; [exact Hnd | split; [exact P |]]].
  apply (proj1 (digest_key_order_independent dict_a_b dict_b_a Hk Hnd P)).
Defined.

(** Outside the data model the order of insertion can show: [<] does
    not order a key that is not a number. *)
Lemma dumps_nan_key_keeps_insertion_order :
  dumps (PDict [(KFloat S754_nan, PInt 1); (KFloat one, PInt 2)])
  = Return (str "{" ++ quoted "NaN" ++ str ": 1, " ++ quoted "1.0" ++ str ": 2}")
  /\ dumps (PDict [(KFloat one, PInt 2); (KFloat S754_nan, PInt 1)])
  = Return (str "{" ++ quoted "1.0" ++ str ": 2, " ++ quoted "NaN" ++ str ": 1}").
Proof. split; vm_compute; reflexivity. Qed.

(** ** What the encoder raises *)


Lemma sequence_only_TypeError rs :
  Forall raises_only_TypeError rs -> raises_only_TypeError (sequence rs).
Proof.
  induction 1 as [|r rs Hr _ IH]; [exact I |].
  cbn [sequence].
  destruct r as [s|e]; cbn [bind]; [| exact Hr].
  destruct (sequence rs) as [ss|e]; cbn [bind]; [exact I | exact IH].
Qed.

Lemma key_lt_only_TypeError a b : raises_only_TypeError (key_lt a b).
Proof.
  unfold key_lt.
  destruct a, b; cbn [num_of_key raises_only_TypeError]; exact I || reflexivity.
Qed.

Section SortingRaises.
Context {V : Type}.

Lemma insert_item_only_TypeError (x : key * V) l :
  raises_only_TypeError (insert_item x l).
Proof.
  induction l as [|y l IH]; [exact I |].
  cbn [insert_item].
  pose proof (key_lt_only_TypeError (fst y) (fst x)) as K.
  destruct (key_lt (fst y) (fst x)) as [[|]|e]; cbn [bind];
    [| exact I | exact K].
  destruct (insert_item x l) as [r|e]; cbn [bind]; [exact I | exact IH].
Qed.

Lemma sort_items_only_TypeError (l : list (key * V)) :
  raises_only_TypeError (sort_items l).
Proof.
  induction l as [|x l IH]; [exact I |].
  cbn [sort_items].
  destruct (sort_items l) as [r|e]; cbn [bind]; [| exact IH].
  apply insert_item_only_TypeError.
Qed.

End SortingRaises.

Lemma emit_item_only_TypeError kv :
  raises_only_TypeError (snd kv) -> raises_only_TypeError (emit_item kv).
Proof.
  unfold emit_item. destruct (snd kv) as [s|e]; cbn [bind]; auto.
Qed.

Lemma dumps_only_TypeError v : raises_only_TypeError (dumps v).
Proof.
  induction v using pyobj_induction; try exact I.
  - rewrite dumps_list.
    assert (S : raises_only_TypeError (sequence (map dumps l))).
    { apply sequence_only_TypeError. apply Forall_map. assumption. }
    destruct (sequence (map dumps l)); cbn [bind]; [exact I | exact S].
  - rewrite dumps_tuple, dumps_list.
    assert (S : raises_only_TypeError (sequence (map dumps l))).
    { apply sequence_only_TypeError. apply Forall_map. assumption. }
    destruct (sequence (map dumps l)); cbn [bind]; [exact I | exact S].
  - rewrite dumps_dict.
    set (enc := fun kv : key * pyobj => (fst kv, dumps (snd kv))).
    pose proof (sort_items_only_TypeError (map enc items)) as So.
    destruct (sort_items (map enc items)) as [sorted|e] eqn:Es; cbn [bind];
      [| exact So].
    assert (S : raises_only_TypeError (sequence (map emit_item sorted))).
    { apply sequence_only_TypeError. apply Forall_map.
      eapply Permutation_Forall; [apply sort_items_perm; exact Es |].
      apply Forall_map. rewrite Forall_forall in *.
      intros kv Hin. apply emit_item_only_TypeError. cbn [enc snd].
      apply H. exact Hin. }
    destruct (sequence (map emit_item sorted)); cbn [bind]; [exact I | exact S].
  - reflexivity.
Qed.



(** ** Surrogates *)







Lemma utf8_char_cases c :
  (is_surrogate c = true /\ utf8_char c = Raise UnicodeEncodeError)
  \/ (is_surrogate c = false /\ exists bs, utf8_char c = Return bs).
Proof.
  unfold utf8_char, is_surrogate.
  destruct (Z.ltb_spec (Z.of_N c) 128).
  { right. split; [| eexists; reflexivity].
    apply andb_false_iff. left. apply N.leb_gt. lia. }
  destruct (Z.ltb_spec (Z.of_N c) 2048).
  { right. split; [| eexists; reflexivity].
    apply andb_false_iff. left. apply N.leb_gt. lia. }
  destruct (Z.leb_spec 55296 (Z.of_N c)), (Z.leb_spec (Z.of_N c) 57343);
    cbn [andb].
  - left. split; [| reflexivity].
    apply andb_true_iff. split; apply N.leb_le; lia.
  - right. split.
    + apply andb_false_iff. right. apply N.leb_gt. lia.
    + destruct (Z.of_N c <? 65536); eexists; reflexivity.
  - right. split.
    + apply andb_false_iff. left. apply N.leb_gt. lia.
    + destruct (Z.of_N c <? 65536); eexists; reflexivity.
  - right. split.
    + apply andb_false_iff. left. apply N.leb_gt. lia.
    + destruct (Z.of_N c <? 65536); eexists; reflexivity.
Qed.

(** [str.encode('utf8')] raises exactly on the strings with a
    surrogate, and nothing but [UnicodeEncodeError]. *)
Lemma encode_utf8_surrogate s :
  has_surrogate s = true -> encode_utf8 s = Raise UnicodeEncodeError.
Proof.
  induction s as [|c s IH]; [discriminate |].
  unfold has_surrogate. cbn [existsb encode_utf8].
  destruct (utf8_char_cases c) as [[Hc E] | [Hc [bs E]]];
    rewrite Hc, E; cbn [bind orb]; [reflexivity |].
  intros H. rewrite (IH H). reflexivity.
Qed.

Lemma encode_utf8_no_surrogate s :
  has_surrogate s = false -> exists bs, encode_utf8 s = Return bs.
Proof.
  induction s as [|c s IH]; [intros _; eexists; reflexivity |].
  unfold has_surrogate. cbn [existsb encode_utf8].
  destruct (utf8_char_cases c) as [[Hc E] | [Hc [bs E]]];
    rewrite Hc, E; cbn [bind orb]; [discriminate |].
  intros H. destruct (IH H) as [rest Er]. rewrite Er. cbn [bind].
  eexists. reflexivity.
Qed.

(** What the first statement of [digest] does, by cases. *)
Lemma stringify_cases v :
  (dumps v = Raise TypeError /\ stringify v = Raise TypeError)
  \/ (exists s, dumps v = Return s /\ has_surrogate s = true
                /\ stringify v = Raise UnicodeEncodeError)
  \/ (exists s bs, dumps v = Return s /\ has_surrogate s = false
                   /\ stringify v = Return bs).
Proof.
  unfold stringify. pose proof (dumps_only_TypeError v) as T.
  destruct (dumps v) as [s|e]; cbn [bind].
  - right. destruct (has_surrogate s) eqn:Hs.
    + left. exists s. rewrite (encode_utf8_surrogate s Hs).
      split; [reflexivity | split; [exact Hs | reflexivity]].
    + right. destruct (encode_utf8_no_surrogate s Hs) as [bs E].
      exists s, bs. rewrite E.
      split; [reflexivity | split; [exact Hs | reflexivity]].
  - left. cbn in T. subst e. split; reflexivity.
Qed.

(** ** Objects that can be stringified *)























Lemma str_eqb_eq a b : str_eqb a b = true <-> a = b.
Proof.
  revert b. induction a as [|x a IH]; intros [|y b]; cbn [str_eqb];
    try (split; [discriminate | discriminate]); [split; reflexivity |].
  rewrite andb_true_iff, N.eqb_eq, IH. split.
  - intros [-> ->]. reflexivity.
  - intros E. injection E as -> ->. split; reflexivity.
Qed.

Lemma distinct_keys_NoDup ks :
  Forall (fun k => is_str_key k = true) ks ->
  distinct_keys ks = true -> NoDup ks.
Proof.
  induction 1 as [|k ks Hk Hks IH]; [constructor |].
  cbn [distinct_keys]. intros H. apply andb_true_iff in H.
  destruct H as [Hn Hd]. constructor; [| apply IH; exact Hd].
  intros Hin. apply negb_true_iff in Hn.
  assert (E : existsb (same_str_key k) ks = true).
  { apply existsb_exists. exists k. split; [exact Hin |].
    destruct k; try discriminate. cbn [same_str_key].
    apply str_eqb_eq. reflexivity. }
  rewrite E in Hn. discriminate.
Qed.



Lemma sample_jsonable : jsonable sample = true.
Proof. reflexivity. Qed.



(** ** The exceptions of [digest] *)

Lemma unsupported_is_not_unserializable name :
  UnsupportedAlgorithm name <> UnserializableInput.
Proof.
  unfold UnsupportedAlgorithm, UnserializableInput. intros E.
  injection E as E. apply (f_equal (@rev N)) in E.
  rewrite rev_app_distr in E. vm_compute in E. discriminate E.
Qed.

Lemma digest_not_serializable v algorithm :
  dumps v = Raise TypeError -> digest v algorithm = Raise UnserializableInput.
Proof.
  intros E. unfold digest, stringify. rewrite E. reflexivity.
Qed.



(** ** Objects without encoding *)




(** ** Strings that UTF-8 cannot encode *)




(** ** Names that are no algorithm *)

(** C2, as the code has it: a name that [hashlib] does not have makes
    [digest] fail, for every object that can be stringified, with the
    error for the algorithm; its message is not the one of the error
    for the object, its class ([ValueError]) is the same; no digest
    under another algorithm is returned instead. *)
Theorem digest_unknown_algorithm :
  forall v bs name,
    stringify v = Return bs ->
    Hashlib.getattr name = Raise AttributeError ->
    digest v (Some name) = Raise (UnsupportedAlgorithm name)
    /\ UnsupportedAlgorithm name <> UnserializableInput
    /\ class_of (UnsupportedAlgorithm name) = class_of UnserializableInput
    /\ digest v (Some name) <> digest v None.
Proof.
  intros v bs name Hs Hg.
  assert (E : digest v (Some name) = Raise (UnsupportedAlgorithm name)).
  { unfold digest. rewrite Hs, Hg. reflexivity. }
  split; [exact E | split; [apply unsupported_is_not_unserializable |]].
  split; [reflexivity |].
  destruct (digest_supported v bs (str "sha256") Hashlib.sha256 Hs eq_refl eq_refl)
    as (s & Ed & _).
  rewrite E, digest_default, Ed. discriminate.
Qed.

Lemma digest_unknown_algorithm_witness :
  stringify (PInt 1) = Return [byte_of_Z 49]
  /\ Hashlib.getattr (str "not-a-real-algorithm") = Raise AttributeError
  /\ digest (PInt 1) (Some (str "not-a-real-algorithm"))
     = Raise (UnsupportedAlgorithm (str "not-a-real-algorithm")).
Proof.
  split; [reflexivity | split; [reflexivity |]].
  exact (proj1 (digest_unknown_algorithm (PInt 1) _ (str "not-a-real-algorithm")
                  eq_refl eq_refl)).
Defined.

(** The two errors are of one class, and a name that [hashlib] has
    without its being an algorithm gets neither of them. *)
Lemma digest_unsupported_counterexample :
  digest (PInt 1) (Some (str "not-a-real-algorithm"))
    = Raise (ValueError (str "not-a-real-algorithm is not an algorithm provided by Python's hashlib library."))
  /\ digest (PObject (str "set")) (Some (str "sha256"))
    = Raise (ValueError (str "The supplied object is not JSON-serializable for calculating a hash."))
  /\ class_of (UnsupportedAlgorithm (str "not-a-real-algorithm"))
     = class_of UnserializableInput
  /\ supported (str "algorithms_guaranteed") = false
  /\ digest (PInt 1) (Some (str "algorithms_guaranteed")) = Raise TypeError.
Proof. split; [| split; [| split; [| split]]]; vm_compute; reflexivity. Qed.

(** * Further properties of [digest] *)

Import Shape.

(** ** Insertion order at any depth *)

Lemma map_dumps_reordered l l2 :
  Forall (fun v => str_keyed v = true ->
                   forall w, reordered v w -> dumps v = dumps w) l ->
  forallb str_keyed l = true ->
  Forall2 reordered l l2 ->
  map dumps l = map dumps l2.
Proof.
  intros IH Hk R. induction R as [|v w l l2 Rvw _ IHR]; [reflexivity |].
  cbn [forallb] in Hk. apply andb_true_iff in Hk. destruct Hk as [Hv Hl].
  inversion IH as [|? ? IHv IHl]. subst.
  cbn [map]. rewrite (IHv Hv w Rvw), (IHR IHl Hl). reflexivity.
Qed.

Lemma str_keyed_items items :
  str_keyed (PDict items) = true ->
  str_keys items /\ NoDup (map fst items)
  /\ Forall (fun kv => str_keyed (snd kv) = true) items.
Proof.
  cbn [str_keyed]. intros H. apply andb_true_iff in H.
  destruct H as [Hall Hd]. rewrite forallb_forall in Hall.
  assert (Hk : str_keys items).
  { apply Forall_forall. intros kv Hin. specialize (Hall kv Hin).
    apply andb_true_iff in Hall. exact (proj1 Hall). }
  split; [exact Hk | split].
  - apply distinct_keys_NoDup; [| exact Hd].
    apply Forall_map. exact Hk.
  - apply Forall_forall. intros kv Hin. specialize (Hall kv Hin).
    apply andb_true_iff in Hall. exact (proj2 Hall).
Qed.

Lemma reordered_dumps v :
  str_keyed v = true -> forall w, reordered v w -> dumps v = dumps w.
Proof.
  induction v using pyobj_induction; intros Hk w R;
    inversion R; subst; try reflexivity.
  - rewrite !dumps_list.
    rewrite (map_dumps_reordered l l2); [reflexivity | | | ]; assumption.
  - rewrite !dumps_tuple, !dumps_list.
    rewrite (map_dumps_reordered l l2); [reflexivity | | | ]; assumption.
  - destruct (str_keyed_items items Hk) as (Hs & Hnd & Hv).
    match goal with
    | F : Forall2 _ items ?mid, Q : Permutation ?mid _ |- _ =>
        rename mid into items'; rename F into F2; rename Q into Pm
    end.
    assert (E : map (fun kv => (fst kv, dumps (snd kv))) items
                = map (fun kv => (fst kv, dumps (snd kv))) items').
    { clear Pm R Hk Hs Hnd.
      induction F2 as [|a b items items' [Ek Rv] _ IHF]; [reflexivity |].
      inversion H as [|? ? Ha Hrest]. inversion Hv as [|? ? Hva Hvrest].
      subst. cbn [map].
      rewrite Ek, (Ha Hva (snd b) Rv), (IHF Hrest Hvrest). reflexivity. }
    assert (Ekeys : map fst items' = map fst items).
    { pose proof (f_equal (map fst) E) as Ef.
      rewrite !map_map in Ef. cbn [fst] in Ef. symmetry. exact Ef. }
    transitivity (dumps (PDict items')).
    + rewrite !dumps_dict, E. reflexivity.
    + apply dumps_dict_of_perm; [| rewrite Ekeys; exact Hnd | exact Pm].
      unfold str_keys in *. rewrite Forall_forall in *.
      clear - F2 Hs. intros kv Hin.
      induction F2 as [|a b items items' [Ek _] _ IHF]; [destruct Hin |].
      destruct Hin as [<- | Hin].
      * rewrite <- Ek. apply Hs. left. reflexivity.
      * apply IHF; [| exact Hin]. intros x Hx. apply Hs. right. exact Hx.
Qed.

(** An object whose dicts have pairwise different string keys keeps
    its digest, under every algorithm, when the items of its dicts, at
    any depth, are inserted in another order. *)
Theorem digest_reordered :
  forall v w algorithm,
    str_keyed v = true -> reordered v w ->
    digest v algorithm = digest w algorithm.
Proof.
  intros v w algorithm Hk R. apply digest_of_stringify. unfold stringify.
  rewrite (reordered_dumps v Hk w R). reflexivity.
Qed.

Lemma digest_reordered_witness :
  str_keyed (PList [PDict dict_a_b; PInt 3]) = true
  /\ reordered (PList [PDict dict_a_b; PInt 3]) (PList [PDict dict_b_a; PInt 3])
  /\ digest (PList [PDict dict_a_b; PInt 3]) None
     = digest (PList [PDict dict_b_a; PInt 3]) None.
Proof.
  assert (R : reordered (PList [PDict dict_a_b; PInt 3])
                        (PList [PDict dict_b_a; PInt 3])).
  { apply reordered_list. constructor; [| constructor; [| constructor]].
    - apply (reordered_dict dict_a_b dict_a_b dict_b_a).
      + repeat constructor.
      + apply perm_swap.
    - apply reordered_same. }
  split; [reflexivity | split; [exact R |]].
  apply digest_reordered; [reflexivity | exact R].
Defined.

(** ** Keys that cannot be sorted *)

Lemma key_lt_kind a b r : key_lt a b = Return r -> kind_of a = kind_of b.
Proof.
  destruct a, b; cbn; intros E; try discriminate E; reflexivity.
Qed.

Section SortingKinds.
Context {V : Type}.

Lemma insert_item_head (x y : key * V) l r :
  insert_item x (y :: l) = Return r ->
  kind_of (fst y) = kind_of (fst x).
Proof.
  cbn [insert_item].
  destruct (key_lt (fst y) (fst x)) as [b|e] eqn:E; cbn [bind];
    [| discriminate].
  intros _. exact (key_lt_kind _ _ _ E).
Qed.

(** [sorted] returns only when the keys are of one kind. *)
Lemma sort_items_kinds (l r : list (key * V)) :
  sort_items l = Return r ->
  forall a b, In a l -> In b l -> kind_of (fst a) = kind_of (fst b).
Proof.
  revert r. induction l as [|x l IH]; intros r E a b Ha Hb; [destruct Ha |].
  cbn [sort_items] in E.
  destruct (sort_items l) as [r'|e] eqn:El; cbn [bind] in E;
    [| discriminate].
  specialize (IH r' eq_refl).
  assert (Hx : forall c, In c l -> kind_of (fst c) = kind_of (fst x)).
  { intros c Hc. destruct r' as [|y r''].
    - apply sort_items_perm in El. apply Permutation_sym in El.
      apply Permutation_nil in El. subst l. destruct Hc.
    - assert (Hy : In y l).
      { eapply Permutation_in;
          [apply Permutation_sym, sort_items_perm; exact El |].
        left. reflexivity. }
      rewrite (IH c y Hc Hy). exact (insert_item_head x y r'' r E). }
  destruct Ha as [<- | Ha], Hb as [<- | Hb].
  - reflexivity.
  - symmetry. apply Hx. exact Hb.
  - apply Hx. exact Ha.
  - apply IH; assumption.
Qed.

End SortingKinds.

(** A dict with two keys of different kinds (a string and a number,
    [None] and anything else) cannot be sorted: [digest] fails with
    the error for objects that are not JSON-serializable, under every
    algorithm. *)
Theorem digest_mixed_keys :
  forall items a b algorithm,
    In a items -> In b items ->
    kind_of (fst a) <> kind_of (fst b) ->
    digest (PDict items) algorithm = Raise UnserializableInput.
Proof.
  intros items a b algorithm Ha Hb Hne.
  apply digest_not_serializable.
  pose proof (dumps_only_TypeError (PDict items)) as T.
  destruct (dumps (PDict items)) as [s|e] eqn:E;
    [| cbn in T; rewrite T; reflexivity].
  exfalso. rewrite dumps_dict in E.
  set (enc := fun kv : key * pyobj => (fst kv, dumps (snd kv))) in E.
  destruct (sort_items (map enc items)) as [sorted|e] eqn:Es;
    cbn [bind] in E; [| discriminate].
  apply Hne.
  exact (sort_items_kinds _ _ Es (enc a) (enc b)
           (in_map enc _ _ Ha) (in_map enc _ _ Hb)).
Qed.

Lemma digest_mixed_keys_witness :
  In (KStr (str "a"), PInt 1) [(KStr (str "a"), PInt 1); (KInt 1, PInt 2)]
  /\ In (KInt 1, PInt 2) [(KStr (str "a"), PInt 1); (KInt 1, PInt 2)]
  /\ kind_of (KStr (str "a")) <> kind_of (KInt 1)
  /\ digest (PDict [(KStr (str "a"), PInt 1); (KInt 1, PInt 2)]) None
     = Raise UnserializableInput.
Proof.
  assert (Ha : In (KStr (str "a"), PInt 1)
                  [(KStr (str "a"), PInt 1); (KInt 1, PInt 2)])
    by (left; reflexivity).
  assert (Hb : In (KInt 1, PInt 2)
                  [(KStr (str "a"), PInt 1); (KInt 1, PInt 2)])
    by (right; left; reflexivity).
  assert (Hne : kind_of (KStr (str "a")) <> kind_of (KInt 1)) by discriminate.
  split; [exact Ha | split; [exact Hb | split; [exact Hne |]]].
  exact (digest_mixed_keys _ _ _ None Ha Hb Hne).
Defined.

(** ** The objects that are accepted *)



(** * Properties of the other functions *)

Import Text.

(** ** [split] and [join] *)

Lemma split_nonempty sep m s : split sep m s <> [].
Proof.
  revert m. induction s as [|c s IH]; intros m; cbn [split]; [discriminate |].
  assert (C : forall m', cons_head c (split sep m' s) <> []).
  { intros m'. destruct (split sep m' s); discriminate. }
  destruct (c =? sep)%N; [destruct m as [[|n]|] |];
    try discriminate; apply C.
Qed.

(** Without the separator, or without a split left, the string is
    the only part. *)
Lemma split_absent sep m s : contains sep s = false -> split sep m s = [s].
Proof.
  unfold contains. revert m. induction s as [|c s IH]; intros m H;
    [reflexivity |].
  cbn [existsb] in H. apply orb_false_iff in H. destruct H as [Hc Hs].
  cbn [split]. rewrite N.eqb_sym, Hc, (IH m Hs). reflexivity.
Qed.

Lemma split_no_split_left sep s : split sep (Some O) s = [s].
Proof.
  induction s as [|c s IH]; [reflexivity |].
  cbn [split]. rewrite IH. destruct (c =? sep)%N; reflexivity.
Qed.

(** The first separator ends the first part. *)
Lemma split_first sep a b :
  contains sep a = false ->
  split sep None (a ++ sep :: b) = a :: split sep None b
  /\ forall n, split sep (Some (S n)) (a ++ sep :: b)
               = a :: split sep (Some n) b.
Proof.
  unfold contains. induction a as [|c a IH]; intros H.
  - cbn [app split]. rewrite N.eqb_refl. split; [reflexivity |].
    intros n. reflexivity.
  - cbn [existsb] in H. apply orb_false_iff in H. destruct H as [Hc Ha].
    destruct (IH Ha) as [E1 E2].
    cbn [app split]. rewrite N.eqb_sym, Hc, E1. split; [reflexivity |].
    intros n. rewrite E2. reflexivity.
Qed.

Lemma split_once sep a b :
  contains sep a = false ->
  split sep (Some 1%nat) (a ++ sep :: b) = [a; b].
Proof.
  intros H. rewrite (proj2 (split_first sep a b H) O), split_no_split_left.
  reflexivity.
Qed.

Lemma join_cons sep p q r :
  join sep (p :: q :: r) = p ++ sep ++ join sep (q :: r).
Proof. reflexivity. Qed.

(** Joining the parts with the separator gives the string back. *)
Lemma join_split sep m s : join [sep] (split sep m s) = s.
Proof.
  revert m. induction s as [|c s IH]; intros m; [reflexivity |].
  assert (C : forall m', join [sep] (cons_head c (split sep m' s)) = c :: s).
  { intros m'. specialize (IH m'). pose proof (split_nonempty sep m' s) as N.
    destruct (split sep m' s) as [|p ps]; [contradiction |].
    cbn [cons_head]. destruct ps as [|q ps].
    - cbn [join] in *. rewrite IH. reflexivity.
    - rewrite join_cons in *. cbn [app] in *. rewrite IH. reflexivity. }
  assert (D : forall m', join [sep] ([] :: split sep m' s) = sep :: s).
  { intros m'. specialize (IH m'). pose proof (split_nonempty sep m' s) as N.
    destruct (split sep m' s) as [|p ps]; [contradiction |].
    rewrite join_cons. cbn [app]. rewrite IH. reflexivity. }
  cbn [split]. destruct (N.eqb_spec c sep) as [-> | _]; [| apply C].
  destruct m as [[|n]|]; [apply C | apply D | apply D].
Qed.

Lemma split_length sep s :
  List.length (split sep None s) = S (count sep s).
Proof.
  unfold count. induction s as [|c s IH]; [reflexivity |].
  cbn [split count_occ].
  destruct (N.eqb_spec c sep) as [-> | Hne].
  - destruct (N.eq_dec sep sep) as [_ | C]; [| contradiction].
    cbn [List.length]. rewrite IH. reflexivity.
  - destruct (N.eq_dec c sep) as [C | _]; [contradiction |].
    pose proof (split_nonempty sep None s) as N.
    destruct (split sep None s) as [|p ps]; [contradiction |].
    cbn [cons_head List.length] in *. exact IH.
Qed.

Lemma contains_count sep s : contains sep s = false <-> count sep s = O.
Proof.
  unfold contains, count. induction s as [|c s IH]; [split; reflexivity |].
  cbn [existsb count_occ].
  destruct (N.eq_dec c sep) as [-> | Hne].
  - rewrite N.eqb_refl. cbn [orb]. split; discriminate.
  - rewrite (proj2 (N.eqb_neq sep c)) by (intros E; apply Hne; symmetry; exact E).
    cbn [orb]. exact IH.
Qed.

(** A string with exactly one separator is two parts around it. *)
Lemma count_one sep s :
  count sep s = 1%nat ->
  exists a b, s = a ++ sep :: b
              /\ contains sep a = false /\ contains sep b = false.
Proof.
  unfold count. induction s as [|c s IH]; [discriminate |].
  cbn [count_occ]. destruct (N.eq_dec c sep) as [-> | Hne].
  - intros E. injection E as E. exists [], s.
    split; [reflexivity | split; [reflexivity |]].
    apply contains_count. exact E.
  - intros E. destruct (IH E) as (a & b & -> & Ha & Hb).
    exists (c :: a), b. split; [reflexivity | split; [| exact Hb]].
    unfold contains in *. cbn [existsb]. rewrite Ha.
    rewrite (proj2 (N.eqb_neq sep c)) by (intros C; apply Hne; symmetry; exact C).
    reflexivity.
Qed.

(** ** [options_from_eqdelimstring] *)

Section Yaml.
Context {Y : Type}.
Variable safe_load : pystr -> outcome Y.

Lemma option_line_ok k v :
  contains 61 k = false ->
  Cli.option_line (k ++ [61%N] ++ v) = Ok (k ++ str ": " ++ v).
Proof.
  intros H. unfold Cli.option_line. cbn [app].
  rewrite (split_once 61 k v H). reflexivity.
Qed.

Lemma option_line_no_equals opt :
  contains 61 opt = false -> Cli.option_line opt = Err IndexError.
Proof.
  intros H. unfold Cli.option_line.
  rewrite (split_absent 61 _ opt H). reflexivity.
Qed.

Lemma option_line_raises opt e :
  Cli.option_line opt = Err e -> e = IndexError.
Proof.
  unfold Cli.option_line, getitem.
  destruct (split 61 (Some 1%nat) opt) as [|k [|v rest]]; cbn;
    intros E; inversion E; reflexivity.
Qed.

Lemma option_lines_ok kvs :
  Forall (fun kv => contains 61 (fst kv) = false) kvs ->
  Cli.option_lines (map (fun kv => fst kv ++ [61%N] ++ snd kv) kvs)
  = Ok (map (fun kv => fst kv ++ str ": " ++ snd kv) kvs).
Proof.
  induction 1 as [|kv kvs Hk _ IH]; [reflexivity |].
  cbn [map Cli.option_lines].
  rewrite (option_line_ok _ _ Hk). cbn [and_then]. rewrite IH. reflexivity.
Qed.

Lemma option_lines_no_equals opts :
  Exists (fun opt => contains 61 opt = false) opts ->
  Cli.option_lines opts = Err IndexError.
Proof.
  induction 1 as [opt opts H | opt opts _ IH]; cbn [Cli.option_lines].
  - rewrite (option_line_no_equals opt H). reflexivity.
  - destruct (Cli.option_line opt) as [line|e] eqn:E; cbn [and_then].
    + rewrite IH. reflexivity.
    + rewrite (option_line_raises opt e E). reflexivity.
Qed.

(** For options [key=value] whose keys have no equals sign, the YAML
    document that is loaded has one line [key: value] for each
    option, in their order; the value is everything after the first
    equals sign, further equals signs included. *)
Theorem options_document :
  forall kvs,
    Forall (fun kv => contains 61 (fst kv) = false) kvs ->
    Cli.options_from_eqdelimstring safe_load
      (map (fun kv => fst kv ++ [61%N] ++ snd kv) kvs)
    = safe_load (join [10%N] (map (fun kv => fst kv ++ str ": " ++ snd kv) kvs)).
Proof.
  intros kvs H. unfold Cli.options_from_eqdelimstring.
  rewrite (option_lines_ok kvs H). reflexivity.
Qed.

(** An option without equals sign makes the call raise [IndexError];
    the YAML parser is not run. *)
Theorem options_without_equals :
  forall opts,
    Exists (fun opt => contains 61 opt = false) opts ->
    Cli.options_from_eqdelimstring safe_load opts = Err IndexError.
Proof.
  intros opts H. unfold Cli.options_from_eqdelimstring.
  rewrite (option_lines_no_equals opts H). reflexivity.
Qed.

(** ** [EqDelimStringParamType.convert] *)

(** A value without equals sign is refused with [click]'s
    [BadParameter] and the message of the code, whatever the YAML
    parser would do. *)
Theorem EqDelimStringParamType_rejects :
  forall value,
    contains 61 value = false ->
    Cli.EqDelimStringParamType_convert safe_load value
    = Err (BadParameter
             (value ++ str " is not a valid equal-delimited string")).
Proof.
  intros value H.
  unfold Cli.EqDelimStringParamType_convert, Cli.options_from_eqdelimstring.
  rewrite (option_lines_no_equals [value]) by (constructor; exact H).
  reflexivity.
Qed.

Lemma EqDelimStringParamType_no_IndexError value :
  Cli.EqDelimStringParamType_convert safe_load value <> Err IndexError.
Proof.
  unfold Cli.EqDelimStringParamType_convert.
  destruct (Cli.options_from_eqdelimstring safe_load [value]) as [y|e];
    cbn [try_except]; [discriminate |].
  destruct e; cbn [is_IndexError]; discriminate.
Qed.

(** A value [key=value] is what the YAML parser makes of the document
    [key: value], errors of the parser included (an [IndexError]
    apart, which would be taken for a missing equals sign). *)
Theorem EqDelimStringParamType_accepts :
  forall k v : pystr,
    contains 61 k = false ->
    safe_load (k ++ str ": " ++ v) <> Err IndexError ->
    Cli.EqDelimStringParamType_convert safe_load (k ++ [61%N] ++ v)
    = safe_load (k ++ str ": " ++ v).
Proof.
  intros k v Hk Hy. unfold Cli.EqDelimStringParamType_convert.
  assert (D : Cli.options_from_eqdelimstring safe_load [k ++ [61%N] ++ v]
              = safe_load (k ++ str ": " ++ v)).
  { pose proof (option_lines_ok [(k, v)]) as L. cbn [map fst snd] in L.
    unfold Cli.options_from_eqdelimstring.
    rewrite L; [reflexivity | constructor; [exact Hk | constructor]]. }
  unfold pystr in *. rewrite D.
  destruct (safe_load (k ++ str ": " ++ v)) as [y|e]; [reflexivity |].
  cbn [try_except]. destruct e; cbn [is_IndexError]; try reflexivity.
  exfalso. apply Hy. reflexivity.
Qed.

End Yaml.

Lemma options_document_witness :
  Forall (fun kv => contains 61 (fst kv) = false)
         [(str "a", str "1"); (str "b", str "x=y")]
  /\ Cli.options_from_eqdelimstring (fun doc => Ok doc)
       [str "a=1"; str "b=x=y"]
     = Ok (str "a: 1" ++ [10%N] ++ str "b: x=y").
Proof.
  assert (H : Forall (fun kv => contains 61 (fst kv) = false)
                     [(str "a", str "1"); (str "b", str "x=y")])
    by (repeat constructor).
  split; [exact H |].
  exact (options_document (fun doc => Ok doc) _ H).
Defined.

Lemma options_without_equals_witness :
  Exists (fun opt => contains 61 opt = false) [str "a=1"; str "b"]
  /\ Cli.options_from_eqdelimstring (fun doc => Ok doc) [str "a=1"; str "b"]
     = Err IndexError.
Proof.
  assert (H : Exists (fun opt => contains 61 opt = false) [str "a=1"; str "b"])
    by (right; left; reflexivity).
  split; [exact H |].
  exact (options_without_equals (fun doc => Ok doc) _ H).
Defined.

Lemma EqDelimStringParamType_rejects_witness :
  contains 61 (str "verbose") = false
  /\ Cli.EqDelimStringParamType_convert (fun doc => Ok doc) (str "verbose")
     = Err (BadParameter (str "verbose is not a valid equal-delimited string")).
Proof.
  split; [reflexivity |].
  exact (EqDelimStringParamType_rejects (fun doc => Ok doc) (str "verbose")
           eq_refl).
Defined.

Lemma EqDelimStringParamType_accepts_witness :
  contains 61 (str "a") = false
  /\ Cli.EqDelimStringParamType_convert (fun doc => Ok doc) (str "a=1")
     = Ok (str "a: 1").
Proof.
  split; [reflexivity |].
  refine (EqDelimStringParamType_accepts (fun doc => Ok doc) (str "a") (str "1")
            eq_refl _).
  discriminate.
Defined.

(** ** [VolumeMountPath.convert] *)

Section Path.
Context {P Q : Type}.
Variable repr : pystr -> pystr.
Variable Path_convert : pystr -> outcome P.
Variable coerce_path_result : pystr -> outcome Q.

(** A value [host:mount] with no other colon is converted part by
    part: the host path by [click.Path], the mount path by
    [coerce_path_result]; an error of the first comes before the
    second is looked at. *)
Theorem VolumeMountPath_accepts :
  forall host mount,
    contains 58 host = false ->
    contains 58 mount = false ->
    Cli.VolumeMountPath_convert repr Path_convert coerce_path_result
      (host ++ [58%N] ++ mount)
    = and_then (Path_convert host) (fun h =>
      and_then (coerce_path_result mount) (fun m => Ok (h, m))).
Proof.
  intros host mount Hh Hm. unfold Cli.VolumeMountPath_convert. cbn [app].
  rewrite (proj1 (split_first 58 host mount Hh)).
  rewrite (split_absent 58 None mount Hm). reflexivity.
Qed.

(** A value that has no colon, or more than one, is refused with
    [BadParameter] and the message of the code; [click.Path] is not
    asked. *)
Theorem VolumeMountPath_rejects :
  forall value,
    count 58 value <> 1%nat ->
    Cli.VolumeMountPath_convert repr Path_convert coerce_path_result value
    = Err (BadParameter
             (repr value ++ str " is not a valid colon-separated option")).
Proof.
  intros value H. unfold Cli.VolumeMountPath_convert.
  pose proof (split_length 58 value) as L.
  destruct (split 58 None value) as [|a [|b [|c rest]]];
    cbn [List.length] in L; try reflexivity.
  exfalso. apply H. injection L as L. symmetry. exact L.
Qed.

End Path.

Lemma VolumeMountPath_accepts_witness :
  contains 58 (str "/data") = false /\ contains 58 (str "/mnt") = false
  /\ Cli.VolumeMountPath_convert (fun s => s) (fun s => Ok s) (fun s => Ok s)
       (str "/data:/mnt")
     = Ok (str "/data", str "/mnt").
Proof.
  split; [reflexivity | split; [reflexivity |]].
  exact (VolumeMountPath_accepts (fun s => s) (fun s => Ok s) (fun s => Ok s)
           (str "/data") (str "/mnt") eq_refl eq_refl).
Defined.

Lemma VolumeMountPath_rejects_witness :
  count 58 (str "C:/data:/mnt") <> 1%nat
  /\ Cli.VolumeMountPath_convert
       (fun s => [39%N] ++ s ++ [39%N]) (fun s => Ok s) (fun s => Ok s)
       (str "C:/data:/mnt")
     = Err (BadParameter
              ([39%N] ++ str "C:/data:/mnt" ++ [39%N]
               ++ str " is not a valid colon-separated option")).
Proof.
  assert (H : count 58 (str "C:/data:/mnt") <> 1%nat) by discriminate.
  split; [exact H |].
  exact (VolumeMountPath_rejects
           (fun s => [39%N] ++ s ++ [39%N]) (fun s => Ok s) (fun s => Ok s)
           (str "C:/data:/mnt") H).
Defined.

(** ** [citation] *)

Lemma is_linebreak_isspace c : is_linebreak c = true -> isspace c = true.
Proof.
  unfold is_linebreak, isspace.
  rewrite ?orb_true_iff, ?andb_true_iff, ?N.leb_le, ?N.eqb_eq. lia.
Qed.

Lemma join_nil_concat parts : join [] parts = List.concat parts.
Proof.
  induction parts as [|p parts IH]; [reflexivity |].
  destruct parts as [|q parts].
  - cbn [join List.concat]. rewrite app_nil_r. reflexivity.
  - rewrite join_cons, IH. reflexivity.
Qed.

(** The lines of a text, put together, are the text without its line
    breaks. *)
Lemma splitlines_from_concat n :
  forall s cur, (List.length s <= n)%nat ->
    List.concat (splitlines_from cur s)
    = rev cur ++ filter (fun c => negb (is_linebreak c)) s.
Proof.
  induction n as [|n IH]; intros s cur L.
  - destruct s as [|c s]; [| cbn [List.length] in L; lia].
    cbn [splitlines_from filter]. destruct cur as [|x cur]; [reflexivity |].
    cbn [List.concat]. reflexivity.
  - destruct s as [|c s'].
    + cbn [splitlines_from filter]. destruct cur as [|x cur]; [reflexivity |].
      cbn [List.concat]. reflexivity.
    + cbn [List.length] in L. cbn [splitlines_from filter].
      destruct (is_linebreak c) eqn:B; cbn [negb].
      * cbn [List.concat]. f_equal. destruct s' as [|c' s''].
        { reflexivity. }
        destruct ((c =? 13)%N && (c' =? 10)%N) eqn:CRLF.
        { apply andb_true_iff in CRLF. destruct CRLF as [_ LF].
          apply N.eqb_eq in LF. subst c'.
          rewrite (IH s'' []) by (cbn [List.length] in L; lia).
          reflexivity. }
        { rewrite (IH (c' :: s'') []) by lia. reflexivity. }
      * rewrite (IH s' (c :: cur)) by lia. cbn [rev].
        rewrite <- app_assoc. reflexivity.
Qed.

Lemma join_splitlines s :
  join [] (splitlines s) = filter (fun c => negb (is_linebreak c)) s.
Proof.
  rewrite join_nil_concat. unfold splitlines.
  rewrite (splitlines_from_concat (List.length s) s []) by lia.
  reflexivity.
Qed.

Lemma lstrip_head s c r : lstrip s = c :: r -> isspace c = false.
Proof.
  induction s as [|x s IH]; cbn [lstrip]; [discriminate |].
  destruct (isspace x) eqn:X; [exact IH |].
  intros E. injection E as <- _. exact X.
Qed.

Lemma lstrip_suffix s : exists pre, s = pre ++ lstrip s.
Proof.
  induction s as [|x s [pre IH]]; [exists []; reflexivity |].
  cbn [lstrip]. destruct (isspace x).
  - exists (x :: pre). cbn [app]. rewrite <- IH. reflexivity.
  - exists []. reflexivity.
Qed.

Lemma lstrip_fixed s :
  (forall c r, s = c :: r -> isspace c = false) -> lstrip s = s.
Proof.
  destruct s as [|c r]; [reflexivity |]. intros H.
  cbn [lstrip]. rewrite (H c r eq_refl). reflexivity.
Qed.

(** A stripped text begins and ends with no whitespace. *)
Lemma strip_first s c r : strip s = c :: r -> isspace c = false.
Proof.
  unfold strip. intros E.
  destruct (lstrip_suffix (rev (lstrip s))) as [pre P].
  apply (f_equal (@rev N)) in P. rewrite rev_involutive, rev_app_distr in P.
  rewrite E in P. cbn [app] in P.
  exact (lstrip_head s c _ P).
Qed.

Lemma strip_last s init c : strip s = init ++ [c] -> isspace c = false.
Proof.
  unfold strip. intros E. apply (f_equal (@rev N)) in E.
  rewrite rev_involutive, rev_app_distr in E. cbn [rev app] in E.
  exact (lstrip_head _ c _ E).
Qed.

(** Taking the line breaks out keeps the two ends. *)
Lemma filter_first (s : pystr) :
  (forall c r, s = c :: r -> isspace c = false) ->
  forall c r, filter (fun c => negb (is_linebreak c)) s = c :: r ->
              isspace c = false.
Proof.
  destruct s as [|c0 s]; intros H c r; cbn [filter]; [discriminate |].
  pose proof (H c0 s eq_refl) as S0.
  destruct (is_linebreak c0) eqn:B.
  - apply is_linebreak_isspace in B. congruence.
  - cbn [negb]. intros E. injection E as <- _. exact S0.
Qed.

Lemma ends_stripped (s : pystr) :
  (forall c r, s = c :: r -> isspace c = false) ->
  (forall init c, s = init ++ [c] -> isspace c = false) ->
  strip s = s.
Proof.
  intros F L. unfold strip. rewrite (lstrip_fixed s F).
  rewrite lstrip_fixed; [apply rev_involutive |].
  intros c r E. apply (L (rev r) c).
  rewrite <- (rev_involutive s), E. reflexivity.
Qed.

(** The one-line citation is the citation without its line breaks:
    the lines are put together with nothing between them, not even a
    space. *)
Theorem citation_oneline :
  forall text : pystr,
    Info.citation text true
    = filter (fun c => negb (is_linebreak c)) (Info.citation text false)
    /\ forallb (fun c => negb (is_linebreak c)) (Info.citation text true)
       = true.
Proof.
  intros text. unfold Info.citation. rewrite join_splitlines.
  split; [reflexivity |].
  apply forallb_forall. intros c Hc. apply filter_In in Hc. apply Hc.
Qed.

(** In either form the citation has no whitespace at its ends:
    stripping it again changes nothing. *)
Theorem citation_stripped :
  forall (text : pystr) (oneline : bool),
    strip (Info.citation text oneline) = Info.citation text oneline.
Proof.
  intros text oneline. apply ends_stripped.
  - unfold Info.citation. destruct oneline.
    + rewrite join_splitlines. apply filter_first. apply strip_first.
    + apply strip_first.
  - unfold Info.citation. destruct oneline.
    + rewrite join_splitlines. intros init c E.
      apply (f_equal (@rev N)) in E.
      rewrite <- filter_rev, rev_app_distr in E. cbn [rev app] in E.
      revert E. apply filter_first.
      intros c0 r E0. apply (strip_last text (rev r) c0).
      rewrite <- (rev_involutive (strip text)), E0. reflexivity.
    + apply strip_last.
Qed.

(** ** [environment_info] *)

Lemma str_eqb_refl a : str_eqb a a = true.
Proof. apply str_eqb_eq. reflexivity. Qed.

Lemma str_eqb_neq a b : a <> b -> str_eqb a b = false.
Proof.
  intros H. destruct (str_eqb a b) eqn:E; [| reflexivity].
  apply str_eqb_eq in E. contradiction.
Qed.

Lemma dict_get_set k k0 v d :
  dict_get k (dict_set k0 v d)
  = if str_eqb k k0 then Ok v else dict_get k d.
Proof.
  induction d as [|[k' v'] d IH].
  - reflexivity.
  - cbn [dict_set dict_get]. destruct (str_eqb k0 k') eqn:E0.
    + apply str_eqb_eq in E0. subst k'. cbn [dict_get].
      destruct (str_eqb k k0); reflexivity.
    + cbn [dict_get]. rewrite IH.
      destruct (str_eqb k k') eqn:E1; [| reflexivity].
      apply str_eqb_eq in E1. subst k'.
      rewrite str_eqb_neq; [reflexivity |].
      intros C. subst k0. rewrite str_eqb_refl in E0. discriminate.
Qed.

Lemma dict_get_absent k d :
  ~ In k (map fst d) -> dict_get k d = Err (KeyError k).
Proof.
  induction d as [|[k' v'] d IH]; intros H; [reflexivity |].
  cbn [dict_get]. cbn [map fst In] in H.
  rewrite str_eqb_neq by (intros C; apply H; left; symmetry; exact C).
  apply IH. intros C. apply H. right. exact C.
Qed.

Lemma dict_get_present k d :
  In k (map fst d) -> exists v, dict_get k d = Ok v.
Proof.
  induction d as [|[k' v'] d IH]; intros H; [contradiction |].
  cbn [dict_get]. destruct (str_eqb k k') eqn:E; [exists v'; reflexivity |].
  apply IH. cbn [map fst In] in H. destruct H as [C | C]; [| exact C].
  subst k'. rewrite str_eqb_refl in E. discriminate.
Qed.

Lemma dict_get_raises k d e : dict_get k d = Err e -> e = KeyError k.
Proof.
  induction d as [|[k' v'] d IH]; cbn [dict_get].
  - intros E. injection E as <-. reflexivity.
  - destruct (str_eqb k k'); [discriminate | exact IH].
Qed.

Lemma contains_app c a b : contains c (a ++ b) = contains c a || contains c b.
Proof. unfold contains. apply existsb_app. Qed.

(** Splitting at the separator takes apart what [join] has put
    together, when no part has the separator. *)
Lemma split_join sep (parts : list pystr) :
  parts <> [] ->
  Forall (fun p => contains sep p = false) parts ->
  split sep None (join [sep] parts) = parts.
Proof.
  induction parts as [|p parts IH]; intros NE H; [contradiction |].
  inversion H as [|? ? Hp Hparts]; subst.
  destruct parts as [|q parts].
  - cbn [join]. apply split_absent. exact Hp.
  - rewrite join_cons. cbn [app].
    rewrite (proj1 (split_first sep p _ Hp)), IH;
      [reflexivity | discriminate | exact Hparts].
Qed.

Lemma os_release_line_no_feed line :
  os_release_wf line = true -> contains 10 (os_release_line line) = false.
Proof.
  destruct line as [[k v]|]; [| reflexivity].
  cbn [os_release_wf os_release_line]. intros H.
  apply andb_true_iff in H. destruct H as [H Hv].
  apply andb_true_iff in H. destruct H as [_ Hk].
  apply negb_true_iff in Hk, Hv.
  rewrite contains_app, Hk. cbn [orb].
  change ([61%N] ++ v) with (61%N :: v).
  unfold contains in *. cbn [existsb]. rewrite Hv. reflexivity.
Qed.

(** The tokens of a file made of such lines. *)
Lemma os_release_tokens lines :
  forallb os_release_wf lines = true ->
  filter (fun token => negb (str_eqb [] token))
         (split 10 None (join [10%N] (map os_release_line lines)))
  = filter (fun token => negb (str_eqb [] token))
           (map os_release_line lines).
Proof.
  intros H. destruct lines as [|l lines]; [reflexivity |].
  rewrite split_join; [reflexivity | discriminate |].
  apply Forall_forall. intros p Hp. apply in_map_iff in Hp.
  destruct Hp as (line & <- & Hin).
  apply os_release_line_no_feed.
  rewrite forallb_forall in H. apply H. exact Hin.
Qed.

Lemma getitem_head sep (s : pystr) :
  getitem (split sep None s) 0 = Ok (hd [] (split sep None s)).
Proof.
  pose proof (split_nonempty sep None s) as NE.
  destruct (split sep None s); [contradiction | reflexivity].
Qed.

(** The dict of the lines: every key has the value of its last
    line. *)
Lemma os_release_dict_lines lines :
  forallb os_release_wf lines = true ->
  forall d, exists d',
    Info.os_release_dict
      (filter (fun token => negb (str_eqb [] token))
              (map os_release_line lines)) d = Ok d'
    /\ forall k, dict_get k d'
                 = match last_value k lines with
                   | Some v => Ok v
                   | None => dict_get k d
                   end.
Proof.
  induction lines as [|line lines IH]; intros H d.
  - exists d. split; [reflexivity |]. intros k. reflexivity.
  - cbn [forallb] in H. apply andb_true_iff in H. destruct H as [Hl Hs].
    destruct line as [[k0 v0]|].
    + cbn [os_release_wf] in Hl.
      apply andb_true_iff in Hl. destruct Hl as [Hl _].
      apply andb_true_iff in Hl. destruct Hl as [Hk _].
      apply negb_true_iff in Hk.
      cbn [map filter os_release_line].
      assert (T : str_eqb [] (k0 ++ [61%N] ++ v0) = false).
      { destruct k0; reflexivity. }
      rewrite T. cbn [negb Info.os_release_dict].
      change (k0 ++ [61%N] ++ v0) with (k0 ++ 61%N :: v0).
      rewrite (proj1 (split_first 61 k0 v0 Hk)).
      change (getitem (k0 :: split 61 None v0) 1)
        with (getitem (split 61 None v0) 0).
      rewrite getitem_head. cbn [getitem nth_error and_then].
      destruct (IH Hs (dict_set k0 (replace 34 [] (hd [] (split 61 None v0))) d))
        as (d' & E & G).
      exists d'. split; [exact E |].
      intros k. rewrite G. cbn [last_value].
      destruct (last_value k lines); [reflexivity |].
      rewrite dict_get_set. unfold kept_value.
      destruct (str_eqb k k0); reflexivity.
    + cbn [map filter os_release_line str_eqb negb].
      destruct (IH Hs d) as (d' & E & G).
      exists d'. split; [exact E |].
      intros k. rewrite G. cbn [last_value].
      destruct (last_value k lines); reflexivity.
Qed.

(** A token without an equals sign ends the comprehension with
    [IndexError], wherever it stands. *)
Lemma os_release_dict_IndexError line tokens :
  In line tokens -> contains 61 line = false ->
  forall d, Info.os_release_dict tokens d = Err IndexError.
Proof.
  intros Hin Hc. induction tokens as [|t tokens IH]; intros d;
    [contradiction |].
  cbn [Info.os_release_dict]. rewrite getitem_head. cbn [and_then].
  destruct Hin as [-> | Hin].
  - rewrite (split_absent 61 None line Hc). reflexivity.
  - unfold getitem at 1.
    destruct (nth_error (split 61 None t) 1); [| reflexivity].
    cbn [and_then]. apply IH. exact Hin.
Qed.

Lemma environment_info_report h v :
  Info.os_version h = Ok v -> Info.environment_info h = Ok (report h v).
Proof.
  intros E. unfold Info.environment_info. rewrite E. reflexivity.
Qed.

Lemma environment_info_raises h e :
  Info.os_version h = Err e -> Info.environment_info h = Err e.
Proof.
  intros E. unfold Info.environment_info. rewrite E. reflexivity.
Qed.

Lemma os_version_linux h d :
  Info.sys_platform h = str "linux" ->
  Info.call_freedesktop_os_release h = Ok d ->
  Info.os_version h
  = try_except
      (and_then (dict_get (str "NAME") d) (fun name =>
       and_then (dict_get (str "VERSION") d) (fun ver =>
       Ok (name ++ str " " ++ ver))))
      is_OSError (Ok Info.cannot_be_determined).
Proof.
  intros P C. unfold Info.os_version. rewrite P, C. reflexivity.
Qed.

(** The dict function of the module reads the file line by line:
    empty lines are left out, the key is the text before the first
    equals sign, the value the text up to the next one without its
    double quotes, and of two lines for a key the later one counts. *)
Theorem freedesktop_os_release_reads :
  forall lines : list (option (pystr * pystr)),
    forallb os_release_wf lines = true ->
    exists d,
      Info.freedesktop_os_release
        (Some (join [10%N] (map os_release_line lines))) = Ok d
      /\ forall k, dict_get k d
                   = match last_value k lines with
                     | Some v => Ok v
                     | None => Err (KeyError k)
                     end.
Proof.
  intros lines H. unfold Info.freedesktop_os_release.
  cbv zeta. rewrite (os_release_tokens lines H).
  destruct (os_release_dict_lines lines H []) as (d & E & G).
  exists d. split; [exact E |]. intros k. rewrite G. reflexivity.
Qed.

Lemma freedesktop_os_release_reads_witness :
  forallb os_release_wf
    [Some (str "NAME", quoted "Debian GNU/Linux"); None;
     Some (str "URL", str "https://example.org/?a=b");
     Some (str "NAME", str "Debian")] = true
  /\ exists d,
      Info.freedesktop_os_release
        (Some (join [10%N] (map os_release_line
           [Some (str "NAME", quoted "Debian GNU/Linux"); None;
            Some (str "URL", str "https://example.org/?a=b");
            Some (str "NAME", str "Debian")]))) = Ok d
      /\ forall k, dict_get k d
                   = match last_value k
                       [Some (str "NAME", quoted "Debian GNU/Linux");
                        None;
                        Some (str "URL", str "https://example.org/?a=b");
                        Some (str "NAME", str "Debian")] with
                     | Some v => Ok v
                     | None => Err (KeyError k)
                     end.
Proof.
  split; [reflexivity |].
  apply (freedesktop_os_release_reads
           [Some (str "NAME", quoted "Debian GNU/Linux"); None;
            Some (str "URL", str "https://example.org/?a=b");
            Some (str "NAME", str "Debian")]).
  reflexivity.
Defined.

(** On Linux without the [platform] module's function, a line of
    [/etc/os-release] that is not empty and has no equals sign makes
    [environment_info] fail with [IndexError]: only [OSError] is
    handled. *)
Theorem environment_info_line_without_equals :
  forall (h : Info.host) (text line : pystr),
    Info.sys_platform h = str "linux" ->
    Info.platform_freedesktop_os_release h = None ->
    Info.etc_os_release h = Some text ->
    In line (split 10 None text) ->
    line <> [] ->
    contains 61 line = false ->
    Info.environment_info h = Err IndexError.
Proof.
  intros h text line P S F Hin NE Hc.
  apply environment_info_raises.
  unfold Info.os_version, Info.call_freedesktop_os_release.
  rewrite P, S, F. cbn [str_eqb]. unfold Info.freedesktop_os_release.
  cbv zeta.
  rewrite (os_release_dict_IndexError line); [reflexivity | | exact Hc].
  apply filter_In. split; [exact Hin |].
  destruct line; [contradiction | reflexivity].
Qed.

Lemma environment_info_line_without_equals_witness :
  Info.environment_info
    (host_of (str "linux") None
       (Some (str "NAME=Debian" ++ [10%N] ++ str "# a comment" ++ [10%N])))
  = Err IndexError.
Proof.
  apply (environment_info_line_without_equals
           (host_of (str "linux") None
              (Some (str "NAME=Debian" ++ [10%N] ++ str "# a comment"
                       ++ [10%N])))
           (str "NAME=Debian" ++ [10%N] ++ str "# a comment" ++ [10%N])
           (str "# a comment")).
  - reflexivity.
  - reflexivity.
  - reflexivity.
  - vm_compute. right. left. reflexivity.
  - discriminate.
  - reflexivity.
Defined.

(** On Linux a dict without the key [NAME], or with it and without
    [VERSION], makes [environment_info] fail with the [KeyError] of
    that key. *)
Theorem environment_info_missing_key :
  forall (h : Info.host) (d : dict) (k : pystr),
    Info.sys_platform h = str "linux" ->
    Info.call_freedesktop_os_release h = Ok d ->
    k = str "NAME" \/ (k = str "VERSION" /\ In (str "NAME") (map fst d)) ->
    ~ In k (map fst d) ->
    Info.environment_info h = Err (KeyError k).
Proof.
  intros h d k P C K A. apply environment_info_raises.
  rewrite (os_version_linux h d P C).
  destruct K as [-> | [-> Hn]].
  - rewrite (dict_get_absent _ d A). reflexivity.
  - destruct (dict_get_present _ d Hn) as [n ->].
    cbn [and_then]. rewrite (dict_get_absent _ d A). reflexivity.
Qed.

Lemma environment_info_missing_key_witness :
  Info.environment_info
    (host_of (str "linux")
       (Some (Ok [(str "NAME", str "Arch Linux"); (str "ID", str "arch")]))
       None)
  = Err (KeyError (str "VERSION")).
Proof.
  apply (environment_info_missing_key
           (host_of (str "linux")
              (Some (Ok [(str "NAME", str "Arch Linux");
                         (str "ID", str "arch")]))
              None)
           [(str "NAME", str "Arch Linux"); (str "ID", str "arch")]
           (str "VERSION")).
  - reflexivity.
  - reflexivity.
  - right. split; [reflexivity |]. left. reflexivity.
  - intros [C | [C | []]]; discriminate C.
Defined.

(** On Linux without the [platform] module's function, the report
    names the system by the values of the last [NAME] and [VERSION]
    lines of [/etc/os-release]. *)
Theorem environment_info_from_os_release :
  forall (h : Info.host) (lines : list (option (pystr * pystr)))
         (name ver : pystr),
    Info.sys_platform h = str "linux" ->
    Info.platform_freedesktop_os_release h = None ->
    Info.etc_os_release h = Some (join [10%N] (map os_release_line lines)) ->
    forallb os_release_wf lines = true ->
    last_value (str "NAME") lines = Some name ->
    last_value (str "VERSION") lines = Some ver ->
    Info.environment_info h = Ok (report h (name ++ str " " ++ ver)).
Proof.
  intros h lines name ver P S F W Hn Hv.
  apply environment_info_report.
  destruct (os_release_dict_lines lines W []) as (d & E & G).
  rewrite (os_version_linux h d P).
  - rewrite (G (str "NAME")), (G (str "VERSION")), Hn, Hv. reflexivity.
  - unfold Info.call_freedesktop_os_release, Info.freedesktop_os_release.
    rewrite S, F. cbv zeta. rewrite (os_release_tokens lines W). exact E.
Qed.

Lemma environment_info_from_os_release_witness :
  Info.environment_info
    (host_of (str "linux") None
       (Some (join [10%N] (map os_release_line
          [Some (str "NAME", quoted "Ubuntu");
           Some (str "VERSION", quoted "22.04.4 LTS (Jammy Jellyfish)");
           None]))))
  = Ok (report
          (host_of (str "linux") None
             (Some (join [10%N] (map os_release_line
                [Some (str "NAME", quoted "Ubuntu");
                 Some (str "VERSION",
                       quoted "22.04.4 LTS (Jammy Jellyfish)");
                 None]))))
          (str "Ubuntu" ++ str " " ++ str "22.04.4 LTS (Jammy Jellyfish)")).
Proof.
  apply (environment_info_from_os_release
           (host_of (str "linux") None
              (Some (join [10%N] (map os_release_line
                 [Some (str "NAME", quoted "Ubuntu");
                  Some (str "VERSION",
                        quoted "22.04.4 LTS (Jammy Jellyfish)");
                  None]))))
           [Some (str "NAME", quoted "Ubuntu");
            Some (str "VERSION", quoted "22.04.4 LTS (Jammy Jellyfish)");
            None]);
    reflexivity.
Defined.

(** [environment_info] never fails with [OSError]: whatever the
    [platform] module's function or the file gives, that error is
    turned into a report. *)
Theorem environment_info_never_OSError :
  forall h : Info.host, Info.environment_info h <> Err OSError.
Proof.
  intros h. unfold Info.environment_info.
  destruct (Info.os_version h) as [v|e] eqn:V; [discriminate |].
  cbn [and_then]. intros C. injection C as ->.
  unfold Info.os_version in V.
  destruct (str_eqb (Info.sys_platform h) (str "linux")).
  - destruct (Info.call_freedesktop_os_release h) as [d|e].
    + cbn [and_then] in V.
      destruct (dict_get (str "NAME") d) as [n|e] eqn:N.
      * cbn [and_then] in V.
        destruct (dict_get (str "VERSION") d) as [w|e] eqn:W.
        { discriminate V. }
        { apply dict_get_raises in W. subst e. discriminate V. }
      * apply dict_get_raises in N. subst e. discriminate V.
    + cbn [and_then try_except] in V.
      destruct e; cbn [is_OSError] in V; discriminate V.
  - destruct (str_eqb (Info.sys_platform h) (str "darwin")); discriminate V.
Qed.

(** When the release of the system cannot be read on Linux (no
    function in [platform] and no file [/etc/os-release], or an
    [OSError] of the function), the report says so. *)
Theorem environment_info_undetermined :
  forall h : Info.host,
    Info.sys_platform h = str "linux" ->
    Info.call_freedesktop_os_release h = Err OSError ->
    Info.environment_info h = Ok (report h Info.cannot_be_determined).
Proof.
  intros h P C. apply environment_info_report.
  unfold Info.os_version. rewrite P, C. reflexivity.
Qed.

Lemma environment_info_undetermined_witness :
  Info.environment_info (host_of (str "linux") None None)
  = Ok (report (host_of (str "linux") None None) Info.cannot_be_determined).
Proof.
  apply (environment_info_undetermined (host_of (str "linux") None None));
    reflexivity.
Defined.
